(** * KomePa: the catalog query and rendering pipeline of [src/index.ts]

    A shallow embedding of the request handler [app.get('/')] and of the two
    renderers [renderProductList] and [renderError], followed by the
    properties the catalog specification states about them.

    Conventions of the embedding.
    - A JavaScript number is a [num]: [NaN], the two infinities, or an exact
      integer.  The only place where the program forms a fraction is
      [totalProducts / limitNum], whose result is a [quotient] handed straight
      to [Math.ceil]; negative zero is identified with zero.  The arithmetic
      is exact, so it is the program's arithmetic on the integers a double
      holds exactly ([safeInteger], below [2 ^ 53] in absolute value): a
      statement that sends a request parameter through [parseInt], the
      offset product and the store carries that range as a hypothesis.
    - A thrown exception or rejected promise is the [Throw] branch of
      [Result]; [try]/[catch] is a [match] on it.
    - The object returned by [c.req.query()] is a [gmap string string].
    - A document built with hono's [html] tag is a tree of [Html] nodes.
      Attribute values and text are the decoded values a browser obtains:
      [html] escapes every interpolated string on output and the browser's
      decoding inverts it. *)

From Stdlib Require Import ZArith Ascii String List Bool Lia.
From Stdlib Require Import DecimalString.
From Stdlib Require DecimalZ.
From stdpp Require Import gmap strings list.

Local Open Scope Z_scope.

(** ** JavaScript numbers *)

Inductive num : Type :=
| NaN
| PInf
| NInf
| Fin (z : Z).

(** The value of [a / b] before it is rounded: a fraction [n / d], [d <> 0]. *)
Inductive quotient : Type :=
| QNaN
| QPInf
| QNInf
| QFrac (n d : Z).

Module Num.

Definition neg (a : num) : num :=
  match a with
  | NaN => NaN
  | PInf => NInf
  | NInf => PInf
  | Fin x => Fin (- x)
  end.

Definition add (a b : num) : num :=
  match a, b with
  | NaN, _ | _, NaN => NaN
  | PInf, NInf | NInf, PInf => NaN
  | PInf, _ | _, PInf => PInf
  | NInf, _ | _, NInf => NInf
  | Fin x, Fin y => Fin (x + y)
  end.

Definition sub (a b : num) : num := add a (neg b).

(** [sign_inf neg] is the infinity of the given sign. *)
Definition sign_inf (negative : bool) : num := if negative then NInf else PInf.

Definition mul (a b : num) : num :=
  match a, b with
  | NaN, _ | _, NaN => NaN
  | Fin x, Fin y => Fin (x * y)
  | PInf, PInf | NInf, NInf => PInf
  | PInf, NInf | NInf, PInf => NInf
  | PInf, Fin y | Fin y, PInf =>
      if y =? 0 then NaN else sign_inf (y <? 0)
  | NInf, Fin y | Fin y, NInf =>
      if y =? 0 then NaN else sign_inf (0 <? y)
  end.

Definition div (a b : num) : quotient :=
  match a, b with
  | NaN, _ | _, NaN => QNaN
  | (PInf | NInf), (PInf | NInf) => QNaN
  | PInf, Fin y => if y <? 0 then QNInf else QPInf
  | NInf, Fin y => if y <? 0 then QPInf else QNInf
  | Fin _, (PInf | NInf) => QFrac 0 1
  | Fin x, Fin y =>
      if y =? 0
      then (if x =? 0 then QNaN else if x <? 0 then QNInf else QPInf)
      else QFrac x y
  end.

(** The order of numbers; [None] when an operand is [NaN]. *)
Definition compare (a b : num) : option comparison :=
  match a, b with
  | NaN, _ | _, NaN => None
  | PInf, PInf | NInf, NInf => Some Eq
  | PInf, _ | _, NInf => Some Gt
  | NInf, _ | _, PInf => Some Lt
  | Fin x, Fin y => Some (x ?= y)
  end.

(** [a < b], [a <= b], [a > b], [a >= b] and [a === b]. *)
Definition ltb (a b : num) : bool :=
  match compare a b with Some Lt => true | _ => false end.
Definition leb (a b : num) : bool :=
  match compare a b with Some Lt | Some Eq => true | _ => false end.
Definition gtb (a b : num) : bool :=
  match compare a b with Some Gt => true | _ => false end.
Definition geb (a b : num) : bool :=
  match compare a b with Some Gt | Some Eq => true | _ => false end.
Definition strict_eq (a b : num) : bool :=
  match compare a b with Some Eq => true | _ => false end.

(** ToBoolean: [NaN] and [0] are falsy. *)
Definition truthy (a : num) : bool :=
  match a with
  | NaN => false
  | Fin x => negb (x =? 0)
  | _ => true
  end.

(** [a || b] on numbers. *)
Definition or (a b : num) : num := if truthy a then a else b.

Definition decimal (z : Z) : string := NilZero.string_of_int (Z.to_int z).

(** Number::toString, as used when a number is interpolated in a template. *)
Definition toString (a : num) : string :=
  match a with
  | NaN => "NaN"
  | PInf => "Infinity"
  | NInf => "-Infinity"
  | Fin x => decimal x
  end.

(** ToLength, applied by [Array.from] to the [length] property. *)
Definition toLength (a : num) : Z :=
  match a with
  | NaN | NInf => 0
  | PInf => 2 ^ 53 - 1
  | Fin x => Z.max 0 (Z.min x (2 ^ 53 - 1))
  end.

End Num.

Declare Scope num_scope.
Delimit Scope num_scope with num.
Bind Scope num_scope with num.
Infix "+" := Num.add : num_scope.
Infix "-" := Num.sub : num_scope.
Infix "*" := Num.mul : num_scope.
Infix "/" := Num.div : num_scope.
Infix "<?" := Num.ltb : num_scope.
Infix "<=?" := Num.leb : num_scope.
Infix ">?" := Num.gtb : num_scope.
Infix ">=?" := Num.geb : num_scope.
Infix "===" := Num.strict_eq (at level 70, no associativity) : num_scope.

Module Math.

(** [Math.ceil] of a quotient: the least integer not below [n / d]. *)
Definition ceil (q : quotient) : num :=
  match q with
  | QNaN => NaN
  | QPInf => PInf
  | QNInf => NInf
  | QFrac n d => Fin (- ((- n) / d))
  end.

Definition min (a b : num) : num :=
  match Num.compare a b with
  | None => NaN
  | Some Gt => b
  | Some _ => a
  end.

End Math.

(** ** Strings: [parseInt] and [toLocaleString] *)

(** ASCII white space skipped by [parseInt] (strings are byte strings here,
    so the white space characters outside ASCII are not recognised). *)
Definition isWhiteSpace (c : ascii) : bool :=
  let n := nat_of_ascii c in
  (n =? 32)%nat || ((9 <=? n)%nat && (n <=? 13)%nat).

Fixpoint trimStart (s : string) : string :=
  match s with
  | String c rest => if isWhiteSpace c then trimStart rest else s
  | EmptyString => EmptyString
  end.

(** The value of a character as a digit: [0-9], then [a-z] or [A-Z] for 10..35. *)
Definition digitValue (c : ascii) : option Z :=
  let n := Z.of_nat (nat_of_ascii c) in
  if (48 <=? n) && (n <=? 57) then Some (n - 48)
  else if (97 <=? n) && (n <=? 122) then Some (n - 87)
  else if (65 <=? n) && (n <=? 90) then Some (n - 55)
  else None.

(** The longest prefix of [s] made of digits of the radix, as a number;
    [acc] is the value read so far, [None] while no digit was read. *)
Fixpoint parseDigits (radix : Z) (acc : option Z) (s : string) : option Z :=
  match s with
  | EmptyString => acc
  | String c rest =>
      match digitValue c with
      | Some d =>
          if d <? radix
          then parseDigits radix (Some (default 0 acc * radix + d)) rest
          else acc
      | None => acc
      end
  end.

(** [parseInt(s)] with no radix argument: leading white space, an optional
    sign, an optional [0x]/[0X] prefix selecting radix 16, then digits. *)
Definition parseInt (s : string) : num :=
  let s := trimStart s in
  let '(negative, s) :=
    match s with
    | String "-" rest => (true, rest)
    | String "+" rest => (false, rest)
    | _ => (false, s)
    end in
  let '(radix, s) :=
    match s with
    | String "0" (String "x" rest) => (16, rest)
    | String "0" (String "X" rest) => (16, rest)
    | _ => (10, s)
    end in
  match parseDigits radix None s with
  | None => NaN
  | Some v => Fin (if negative then - v else v)
  end.

(** Separators every three digits, on the digits in reverse order. *)
Fixpoint groupThousands (rev_digits : list ascii) : list ascii :=
  match rev_digits with
  | a :: b :: c :: ((_ :: _) as rest) =>
      a :: b :: c :: ","%char :: groupThousands rest
  | _ => rev_digits
  end.

(** [Number.prototype.toLocaleString()] of an integer in the runtime's
    default locale (en-US): digits in groups of three. *)
Definition toLocaleString (z : Z) : string :=
  let digits := list_ascii_of_string (Num.decimal (Z.abs z)) in
  let grouped := string_of_list_ascii (rev (groupThousands (rev digits))) in
  if z <? 0 then "-" +:+ grouped else grouped.

(** ** Exceptions *)

Inductive Error : Type :=
| D1Error (msg : string)
| TypeError (msg : string).

Inductive Result (A : Type) : Type :=
| Ok (a : A)
| Throw (e : Error).
Arguments Ok {A} a.
Arguments Throw {A} e.

(** [Result] is a monad in stdpp's sense: [x ← r; k] runs [k] on the value of
    [r] and passes an exception of [r] on. *)
#[global] Instance Result_ret : MRet Result := fun A a => Ok a.
#[global] Instance Result_bind : MBind Result := fun A B k r =>
  match r with
  | Ok a => k a
  | Throw e => Throw e
  end.

(** ** Data model *)

(** A row of the [products] table ([schema.sql]).  [name] and [product_url]
    are declared NOT NULL; every other column may hold NULL, which is [None]
    here for the columns the renderer reads. *)
Record Product : Type := {
  id : string;
  name : string;
  price : option Z;
  product_url : string;
  affiliate_url : option string;
  image_url : option string;
  site_name : option string;
  last_scraped_at : string;
  created_at : string;
  updated_at : string
}.

(** The second argument of [renderProductList]. *)
Record Pagination : Type := {
  currentPage : num;
  totalPages : num;
  totalProducts : num;
  sort : string;
  limit : num
}.

(** ** Documents *)

#[warnings="-register-all"]
Inductive Html : Type :=
| Doctype
| Text (s : string)
| Elem (tag : string) (attrs : list (string * string)) (children : list Html).

Definition dq : string := String (ascii_of_nat 34) EmptyString.

Definition catalogStyle : string :=
  "* {
  margin: 0;
  padding: 0;
  box-sizing: border-box;
}

body {
  font-family: -apple-system, BlinkMacSystemFont, " +:+ dq +:+ "Segoe UI" +:+ dq +:+ ", Roboto, sans-serif;
  background-color: #f5f5f5;
  color: #333;
}

.container {
  max-width: 1200px;
  margin: 0 auto;
  padding: 20px;
}

.header {
  background-color: #fff;
  padding: 20px;
  margin-bottom: 30px;
  border-radius: 8px;
  box-shadow: 0 2px 4px rgba(0, 0, 0, 0.1);
}

.header h1 {
  color: #2c3e50;
  margin-bottom: 10px;
}

.controls {
  display: flex;
  justify-content: space-between;
  align-items: center;
  margin-bottom: 20px;
  flex-wrap: wrap;
  gap: 10px;
}

.sort-select {
  padding: 8px 12px;
  border: 1px solid #ddd;
  border-radius: 4px;
  background-color: #fff;
  cursor: pointer;
}

.products-grid {
  display: grid;
  grid-template-columns: repeat(auto-fill, minmax(280px, 1fr));
  gap: 20px;
  margin-bottom: 30px;
}

.product-card {
  background-color: #fff;
  border-radius: 8px;
  overflow: hidden;
  box-shadow: 0 2px 8px rgba(0, 0, 0, 0.1);
  transition: transform 0.2s, box-shadow 0.2s;
}

.product-card:hover {
  transform: translateY(-2px);
  box-shadow: 0 4px 12px rgba(0, 0, 0, 0.15);
}

.product-image {
  width: 100%;
  height: 200px;
  object-fit: cover;
  background-color: #f0f0f0;
}

.product-info {
  padding: 15px;
}

.product-name {
  font-size: 16px;
  font-weight: bold;
  margin-bottom: 10px;
  color: #2c3e50;
  line-height: 1.4;
  height: 2.8em;
  overflow: hidden;
  display: -webkit-box;
  -webkit-line-clamp: 2;
  -webkit-box-orient: vertical;
}

.product-price {
  font-size: 20px;
  font-weight: bold;
  color: #e74c3c;
  margin-bottom: 8px;
}

.product-site {
  font-size: 14px;
  color: #7f8c8d;
  margin-bottom: 12px;
}

.buy-button {
  display: block;
  width: 100%;
  padding: 10px;
  background-color: #3498db;
  color: #fff;
  text-align: center;
  text-decoration: none;
  border-radius: 4px;
  font-weight: bold;
  transition: background-color 0.2s;
}

.buy-button:hover {
  background-color: #2980b9;
}

.pagination {
  display: flex;
  justify-content: center;
  align-items: center;
  gap: 10px;
  margin-top: 30px;
}

.pagination a,
.pagination span {
  padding: 8px 12px;
  border: 1px solid #ddd;
  border-radius: 4px;
  text-decoration: none;
  color: #333;
  background-color: #fff;
}

.pagination a:hover {
  background-color: #f0f0f0;
}

.pagination .current {
  background-color: #3498db;
  color: #fff;
  border-color: #3498db;
}

.pagination .disabled {
  color: #999;
  cursor: not-allowed;
}

.no-products {
  text-align: center;
  padding: 60px 20px;
  background-color: #fff;
  border-radius: 8px;
  box-shadow: 0 2px 4px rgba(0, 0, 0, 0.1);
}

.no-products h2 {
  color: #7f8c8d;
  margin-bottom: 10px;
}

@media (max-width: 768px) {
  .controls {
    flex-direction: column;
    align-items: stretch;
  }

  .products-grid {
    grid-template-columns: repeat(auto-fill, minmax(200px, 1fr));
    gap: 15px;
  }
}".

Definition errorStyle : string :=
  "body {
  font-family: -apple-system, BlinkMacSystemFont, " +:+ dq +:+ "Segoe UI" +:+ dq +:+ ", Roboto, sans-serif;
  background-color: #f5f5f5;
  display: flex;
  justify-content: center;
  align-items: center;
  min-height: 100vh;
  margin: 0;
}
.error-container {
  background-color: #fff;
  padding: 40px;
  border-radius: 8px;
  box-shadow: 0 2px 8px rgba(0, 0, 0, 0.1);
  text-align: center;
  max-width: 500px;
}
.error-container h1 {
  color: #e74c3c;
  margin-bottom: 20px;
}
.error-container p {
  color: #7f8c8d;
  margin-bottom: 20px;
}
.back-link {
  color: #3498db;
  text-decoration: none;
}
.back-link:hover {
  text-decoration: underline;
}".

Definition sortScript : string :=
  "function changeSort(value) {
  window.location.href = '?sort=' + value + '&page=1';
}".

(** [a || b] on strings that may be null: the empty string is falsy. *)
Definition truthyString (s : option string) : option string :=
  match s with
  | Some (String _ _ as v) => Some v
  | _ => None
  end.

(** *** The catalog document ([renderProductList]) *)

(** [product.price.toLocaleString()]: a property read on [null] throws. *)
Definition priceText (p : option Z) : Result string :=
  match p with
  | Some v => Ok (toLocaleString v)
  | None =>
      Throw (TypeError "Cannot read properties of null (reading 'toLocaleString')")
  end.

(** One card of the grid.  The image is left out when [image_url] is null or
    empty, the link goes to [affiliate_url || product_url], and a null
    [site_name] interpolates as nothing. *)
Definition renderCard (product : Product) : Result Html :=
  let image :=
    match truthyString (image_url product) with
    | Some url =>
        [Elem "img" [("src", url); ("alt", name product);
                     ("class", "product-image");
                     ("onerror", "this.style.display='none'")] []]
    | None => []
    end in
  priceString ← priceText (price product);
  Ok (Elem "div" [("class", "product-card")]
        (image ++
         [Elem "div" [("class", "product-info")]
            [Elem "div" [("class", "product-name")] [Text (name product)];
             Elem "div" [("class", "product-price")] [Text ("¥" +:+ priceString)];
             Elem "div" [("class", "product-site")]
               [Text (default "" (site_name product))];
             Elem "a" [("href", default (product_url product)
                                  (truthyString (affiliate_url product)));
                       ("target", "_blank");
                       ("rel", "noopener noreferrer");
                       ("class", "buy-button")]
               [Text "詳細を見る"]]])).

Definition summaryText (pagination : Pagination) : string :=
  let cp := currentPage pagination in
  let lim := limit pagination in
  "全" +:+ Num.toString (totalProducts pagination) +:+ "件中 "
  +:+ Num.toString ((cp - Fin 1) * lim + Fin 1)%num +:+ "-"
  +:+ Num.toString (Math.min (cp * lim)%num (totalProducts pagination))
  +:+ "件を表示".

Definition sortOption (pagination : Pagination) (value label : string) : Html :=
  Elem "option"
    (("value", value) ::
     (if String.eqb (sort pagination) value then [("selected", "")] else []))
    [Text label].

Definition renderControls (pagination : Pagination) : Html :=
  Elem "div" [("class", "controls")]
    [Elem "div" [] [Elem "span" [] [Text (summaryText pagination)]];
     Elem "select" [("class", "sort-select");
                    ("onchange", "changeSort(this.value)")]
       [sortOption pagination "price_asc" "価格が安い順";
        sortOption pagination "price_desc" "価格が高い順";
        sortOption pagination "updated_desc" "更新日が新しい順"]].

(** The target of a navigation link: the [sort] token is inserted as it is. *)
Definition pageHref (pageNum : num) (sort : string) : string :=
  "?page=" +:+ Num.toString pageNum +:+ "&sort=" +:+ sort.

Definition navLink (pageNum : num) (sort label : string) : Html :=
  Elem "a" [("href", pageHref pageNum sort)] [Text label].

Definition disabledControl (label : string) : Html :=
  Elem "span" [("class", "disabled")] [Text label].

(** The page number shown at index [i] of the page-link window. *)
Definition windowPage (pagination : Pagination) (i : Z) : num :=
  let tp := totalPages pagination in
  let cp := currentPage pagination in
  if (tp <=? Fin 5)%num then (Fin i + Fin 1)%num
  else if (cp <=? Fin 3)%num then (Fin i + Fin 1)%num
  else if (cp >=? tp - Fin 2)%num then (tp - Fin 4 + Fin i)%num
  else (cp - Fin 2 + Fin i)%num.

Definition pageLink (pagination : Pagination) (i : Z) : Html :=
  let pageNum := windowPage pagination i in
  if (pageNum === currentPage pagination)%num
  then Elem "span" [("class", "current")] [Text (Num.toString pageNum)]
  else navLink pageNum (sort pagination) (Num.toString pageNum).

(** [Array.from({ length: Math.min(5, totalPages) }, (_, i) => ...)]. *)
Definition windowLength (pagination : Pagination) : Z :=
  Num.toLength (Math.min (Fin 5) (totalPages pagination)).

Definition windowPages (pagination : Pagination) : list num :=
  windowPage pagination <$> seqZ 0 (windowLength pagination).

Definition pageLinks (pagination : Pagination) : list Html :=
  pageLink pagination <$> seqZ 0 (windowLength pagination).

Definition prevControl (pagination : Pagination) : Html :=
  if (currentPage pagination >? Fin 1)%num
  then navLink (currentPage pagination - Fin 1)%num (sort pagination) "前へ"
  else disabledControl "前へ".

Definition nextControl (pagination : Pagination) : Html :=
  if (currentPage pagination <? totalPages pagination)%num
  then navLink (currentPage pagination + Fin 1)%num (sort pagination) "次へ"
  else disabledControl "次へ".

Definition renderPagination (pagination : Pagination) : Html :=
  Elem "div" [("class", "pagination")]
    (prevControl pagination :: pageLinks pagination ++ [nextControl pagination]).

Definition noProducts : Html :=
  Elem "div" [("class", "no-products")]
    [Elem "h2" [] [Text "商品が見つかりませんでした"];
     Elem "p" [] [Text "データベースに商品情報がありません。"]].

Definition pageHead (title style : string) : Html :=
  Elem "head" []
    [Elem "meta" [("charset", "UTF-8")] [];
     Elem "meta" [("name", "viewport");
                  ("content", "width=device-width, initial-scale=1.0")] [];
     Elem "title" [] [Text title];
     Elem "style" [] [Text style]].

Definition catalogHeader : Html :=
  Elem "div" [("class", "header")]
    [Elem "h1" [] [Text "🌾 お米価格比較 - KomePa"];
     Elem "p" [] [Text "複数のECサイトからお米の価格を比較できます"]].

(** The part of the container that depends on the page of products. *)
Definition renderListing (products : list Product) (pagination : Pagination)
  : Result (list Html) :=
  if (0 <? length products)%nat then
    cards ← mapM renderCard products;
    Ok ([renderControls pagination;
         Elem "div" [("class", "products-grid")] cards]
        ++ (if (totalPages pagination >? Fin 1)%num
            then [renderPagination pagination] else []))
  else Ok [noProducts].

(** The fixed frame of the catalog document around the listing. *)
Definition catalogDocument (listing : list Html) : list Html :=
  [Doctype;
   Elem "html" [("lang", "ja")]
     [pageHead "お米価格比較 - KomePa" catalogStyle;
      Elem "body" []
        [Elem "div" [("class", "container")] (catalogHeader :: listing);
         Elem "script" [] [Text sortScript]]]].

Definition renderProductList (products : list Product) (pagination : Pagination)
  : Result (list Html) :=
  listing ← renderListing products pagination;
  Ok (catalogDocument listing).

(** *** The error document ([renderError]) *)

Definition renderError (message : string) : list Html :=
  [Doctype;
   Elem "html" [("lang", "ja")]
     [pageHead "エラー - KomePa" errorStyle;
      Elem "body" []
        [Elem "div" [("class", "error-container")]
           [Elem "h1" [] [Text "エラーが発生しました"];
            Elem "p" [] [Text message];
            Elem "a" [("href", "/"); ("class", "back-link")]
              [Text "トップページに戻る"]]]]].

(** ** The store *)

(** The D1 database as the handler uses it: the row of
    [SELECT COUNT( * ) as total FROM products] returned by [first()], and the
    rows of [SELECT * FROM products ORDER BY <orderBy> LIMIT ? OFFSET ?]
    returned by [all()] for the bound limit and offset.  Either call may
    reject. *)
Record CountRow : Type := { total : num }.

Record D1Result : Type := { results : option (list Product) }.

Record D1Database : Type := {
  countProducts : Result (option CountRow);
  selectProducts : string -> num -> num -> Result D1Result
}.

(** *** A store backed by a table of rows, with SQLite's reading of the query *)

(** NULL sorts before every value. *)
Definition priceLe (a b : option Z) : bool :=
  match a, b with
  | None, _ => true
  | Some _, None => false
  | Some x, Some y => x <=? y
  end.

Fixpoint insertBy (le : Product -> Product -> bool) (x : Product)
  (rows : list Product) : list Product :=
  match rows with
  | [] => [x]
  | y :: rest => if le x y then x :: rows else y :: insertBy le x rest
  end.

(** Insertion sort; rows with equal keys keep their table order. *)
Definition sortBy (le : Product -> Product -> bool) (rows : list Product)
  : list Product :=
  foldr (insertBy le) [] rows.

Definition orderRows (orderBy : string) (rows : list Product)
  : Result (list Product) :=
  if String.eqb orderBy "price ASC" then
    Ok (sortBy (fun a b => priceLe (price a) (price b)) rows)
  else if String.eqb orderBy "price DESC" then
    Ok (sortBy (fun a b => priceLe (price b) (price a)) rows)
  else if String.eqb orderBy "updated_at DESC" then
    Ok (sortBy (fun a b => String.leb (updated_at b) (updated_at a)) rows)
  else Throw (D1Error "D1_ERROR: no such column").

(** [LIMIT limit OFFSET offset]: a negative offset counts as zero, a negative
    limit is no limit. *)
Definition limitOffset (limit offset : Z) (rows : list Product) : list Product :=
  let rest := drop (Z.to_nat offset) rows in
  if limit <? 0 then rest else take (Z.to_nat limit) rest.

(** A limit or offset that is not an integer is refused by the store. *)
Definition tableStore (rows : list Product) : D1Database := {|
  countProducts := Ok (Some {| total := Fin (Z.of_nat (length rows)) |});
  selectProducts := fun orderBy limit offset =>
    match limit, offset with
    | Fin l, Fin o =>
        sorted ← orderRows orderBy rows;
        Ok {| results := Some (limitOffset l o sorted) |}
    | _, _ => Throw (D1Error "D1_ERROR: datatype mismatch")
    end
|}.

(** A store whose count succeeds and whose fetch rejects, and one whose
    count already rejects. *)
Definition fetchFailingStore (n : Z) (e : Error) : D1Database := {|
  countProducts := Ok (Some {| total := Fin n |});
  selectProducts := fun _ _ _ => Throw e
|}.

Definition unreachableStore (e : Error) : D1Database := {|
  countProducts := Throw e;
  selectProducts := fun _ _ _ => Throw e
|}.

(** ** The request handler ([app.get('/')]) *)

(** What the handler derives from the request before it touches the store. *)
Record PageQuery : Type := {
  sortParam : string;
  pageNum : num;
  limitNum : num;
  offset : num;
  orderBy : string
}.

(** The [switch] on [sort]. *)
Definition orderByOf (sort : string) : string :=
  if String.eqb sort "price_desc" then "price DESC"
  else if String.eqb sort "updated_desc" then "updated_at DESC"
  else if String.eqb sort "price_asc" then "price ASC"
  else "price ASC".

(** Destructuring with defaults: a default stands in for an absent key only. *)
Definition resolveQuery (query : gmap string string) : PageQuery :=
  let sort := default "price_asc" (query !! "sort") in
  let page := default "1" (query !! "page") in
  let limit := default "20" (query !! "limit") in
  let pageNum := parseInt page in
  let limitNum := parseInt limit in
  {| sortParam := sort;
     pageNum := pageNum;
     limitNum := limitNum;
     offset := ((pageNum - Fin 1) * limitNum)%num;
     orderBy := orderByOf sort |}.

(** [countResult?.total || 0]. *)
Definition totalOf (countResult : option CountRow) : num :=
  match countResult with
  | Some row => Num.or (total row) (Fin 0)
  | None => Fin 0
  end.

(** The two reads of the [try] block and the page view handed to the
    renderer. *)
Definition fetchPage (db : D1Database) (q : PageQuery)
  : Result (list Product * Pagination) :=
  countResult ← countProducts db;
  let totalProducts := totalOf countResult in
  let totalPages := Math.ceil (totalProducts / limitNum q)%num in
  products ← selectProducts db (orderBy q) (limitNum q) (offset q);
  Ok (default [] (results products),
      {| currentPage := pageNum q;
         totalPages := totalPages;
         totalProducts := totalProducts;
         sort := sortParam q;
         limit := limitNum q |}).

Record Response : Type := { status : Z; body : list Html }.

(** [c.html(doc)]. *)
Definition c_html (doc : list Html) : Response := {| status := 200; body := doc |}.

(** The response, and what was written with [console.error]. *)
Record Outcome : Type := {
  response : Response;
  logged : list (string * Error)
}.

Definition fetchErrorMessage : string :=
  "商品データの取得中にエラーが発生しました。".

Definition handler (db : D1Database) (query : gmap string string) : Outcome :=
  let q := resolveQuery query in
  match (view ← fetchPage db q;
         htmlContent ← renderProductList view.1 view.2;
         Ok (c_html htmlContent)) with
  | Ok r => {| response := r; logged := [] |}
  | Throw error =>
      {| response := c_html (renderError fetchErrorMessage);
         logged := [("Error fetching products:", error)] |}
  end.

(** ** Reading documents and links *)

Fixpoint descendants (h : Html) : list Html :=
  h :: match h with
       | Elem _ _ children => flat_map descendants children
       | _ => []
       end.

(** Every node of a document, in document order. *)
Definition nodes (doc : list Html) : list Html := flat_map descendants doc.

Definition attribute (key : string) (h : Html) : option string :=
  match h with
  | Elem _ attrs _ => snd <$> List.find (fun kv => String.eqb kv.1 key) attrs
  | _ => None
  end.

Definition hasClass (c : string) (h : Html) : bool :=
  match attribute "class" h with
  | Some v => String.eqb v c
  | None => false
  end.

Definition hasTag (t : string) (h : Html) : bool :=
  match h with
  | Elem tag _ _ => String.eqb tag t
  | _ => false
  end.

Definition byClass (c : string) (doc : list Html) : list Html :=
  List.filter (hasClass c) (nodes doc).

Definition byTag (t : string) (doc : list Html) : list Html :=
  List.filter (hasTag t) (nodes doc).

Definition childrenOf (h : Html) : list Html :=
  match h with
  | Elem _ _ children => children
  | _ => []
  end.

(** The targets of the links inside the pagination block: Previous, the
    numbered pages and Next. *)
Definition navHrefs (doc : list Html) : list string :=
  block ← byClass "pagination" doc;
  link ← List.filter (hasTag "a") (childrenOf block);
  option_list (attribute "href" link).

(** *** Following a link

    A link whose target is [?k1=v1&k2=v2...] replaces the query of the page
    address; the next request then carries these parameters.  The pairs are
    separated by [&], a key ends at the first [=], a fragment starts at
    [#], and the first value of a repeated key is the one [c.req.query()]
    returns.  The decoding of [%] escapes and of [+] is left out: it leaves
    a value without [%] and [+] as it is. *)
Fixpoint splitOn (sep : ascii) (s : string) : list string :=
  match s with
  | EmptyString => [EmptyString]
  | String c rest =>
      if Ascii.eqb c sep then EmptyString :: splitOn sep rest
      else match splitOn sep rest with
           | seg :: segs => String c seg :: segs
           | [] => [String c EmptyString]
           end
  end.

Fixpoint cutAt (sep : ascii) (s : string) : string * string :=
  match s with
  | EmptyString => (EmptyString, EmptyString)
  | String c rest =>
      if Ascii.eqb c sep then (EmptyString, rest)
      else let '(before, after) := cutAt sep rest in (String c before, after)
  end.

Fixpoint hasChar (c : ascii) (s : string) : bool :=
  match s with
  | EmptyString => false
  | String c' rest => Ascii.eqb c' c || hasChar c rest
  end.

Definition queryOfHref (href : string) : gmap string string :=
  match href with
  | String "?" rest =>
      list_to_map (cutAt "=" <$> splitOn "&" (cutAt "#" rest).1)
  | _ => ∅
  end.

(** ** The specification's wording of the derived values *)

(** The page-link window: pages [1..totalPages] when [totalPages <= 5],
    [1..5] when [currentPage <= 3], [totalPages-4..totalPages] when
    [currentPage >= totalPages - 2], and [currentPage-2..currentPage+2]
    otherwise. *)
Definition specWindow (totalPages currentPage : Z) : list Z :=
  if totalPages <=? 5 then seqZ 1 totalPages
  else if currentPage <=? 3 then seqZ 1 5
  else if currentPage >=? totalPages - 2 then seqZ (totalPages - 4) 5
  else seqZ (currentPage - 2) 5.

(** The closed enumeration of sort keys. *)
Definition sortKeys : list string := ["price_asc"; "price_desc"; "updated_desc"].

(** [n = ceil (a / b)] for a positive [b]: the least integer with [a <= n * b]. *)
Definition isCeiling (n a b : Z) : Prop := (n - 1) * b < a <= n * b.

(** ** Sample data *)

Definition rice (key : string) (yen : option Z) (stamp : string) : Product := {|
  id := key;
  name := "コシヒカリ 5kg";
  price := yen;
  product_url := "https://shop.example/" +:+ key;
  affiliate_url := None;
  image_url := Some ("https://img.example/" +:+ key +:+ ".jpg");
  site_name := Some "楽天";
  last_scraped_at := stamp;
  created_at := stamp;
  updated_at := stamp
|}.

Definition shelf : list Product :=
  [rice "a" (Some 2980) "2025-01-03"; rice "b" (Some 1980) "2025-01-01";
   rice "c" (Some 3480) "2025-01-02"; rice "d" (Some 1980) "2025-01-04";
   rice "e" (Some 4200) "2025-01-05"].

(** ** Auxiliary readings used by the further properties *)

(** The digits of [parseInt] once white space and the sign are gone: the
    choice of the radix and the digits themselves. *)
Definition parseUnsigned (s : string) : option Z :=
  let '(radix, s) :=
    match s with
    | String "0" (String "x" rest) => (16, rest)
    | String "0" (String "X" rest) => (16, rest)
    | _ => (10, s)
    end in
  parseDigits radix None s.

(** The request a client sends for page [p] with page size [l]. *)
Definition pageRequest (sort : string) (p l : Z) : gmap string string :=
  {[ "sort" := sort; "page" := Num.decimal p; "limit" := Num.decimal l ]}.

(** The items of a fetched page; none when the fetch failed. *)
Definition itemsOf (r : Result (list Product * Pagination)) : list Product :=
  match r with
  | Ok view => view.1
  | Throw _ => []
  end.

(** The text inside a node. *)
Fixpoint innerText (h : Html) : string :=
  match h with
  | Doctype => ""
  | Text s => s
  | Elem _ _ children => String.concat "" (map innerText children)
  end.

Definition hasAttribute (key : string) (h : Html) : bool :=
  match attribute key h with
  | Some _ => true
  | None => false
  end.

(** The values of the options of the sort menu that are marked selected. *)
Definition selectedValues (doc : list Html) : list string :=
  menu ← byClass "sort-select" doc;
  option ← List.filter (hasAttribute "selected") (childrenOf menu);
  option_list (attribute "value" option).

(** The target of the buy link of a product. *)
Definition linkTarget (product : Product) : string :=
  match affiliate_url product with
  | Some (String c rest) => String c rest
  | _ => product_url product
  end.

(** Evaluates the value of a literal digit left by [parseDigits_digit]. *)
Ltac eval_digit :=
  repeat match goal with
    | |- context [Z.of_nat (nat_of_ascii ?c) - 48] =>
        let v := eval vm_compute in (Z.of_nat (nat_of_ascii c) - 48) in
        change (Z.of_nat (nat_of_ascii c) - 48) with v
    end.


(** The targets of the links among the given nodes. *)
Definition linkTargets (hs : list Html) : list string :=
  link ← List.filter (hasTag "a") hs;
  option_list (attribute "href" link).

(** The class names of the frame, the controls and the pagination block:
    everything in a catalog document that is not part of a product card. *)
Definition chromeClasses : list string :=
  ["container"; "header"; "controls"; "sort-select"; "products-grid";
   "pagination"; "disabled"; "current"].

(** The price as a card shows it. *)
Definition priceLabel (product : Product) : string :=
  match price product with
  | Some v => "¥" +:+ toLocaleString v
  | None => ""
  end.

(** Proves that a literal class name is none of the chrome classes. *)
Ltac not_chrome :=
  unfold chromeClasses; rewrite !not_elem_of_cons;
  repeat split; try discriminate; apply not_elem_of_nil.

(** ** The store within the range of its bound values *)

(** The integers a JavaScript number holds exactly.  Inside this range the
    exact arithmetic of [num], the digits of [Num.toString] and the result
    of [parseInt] are those of the program's doubles. *)
Definition safeInteger (z : Z) : Prop := - 2 ^ 53 < z < 2 ^ 53.

(** The integers the store takes as a bound [LIMIT] or [OFFSET]: 64-bit
    signed. *)
Definition int64 (z : Z) : bool := (- 2 ^ 63 <=? z) && (z <? 2 ^ 63).

(** The table as the store serves it.  [listing orderBy] is the order in
    which the store lists the rows for an [ORDER BY] clause, rows with equal
    keys in whatever order the store chooses; a bound value outside the
    64-bit integers is refused, like one that is no integer. *)
Definition d1Store (rows : list Product)
  (listing : string -> Result (list Product)) : D1Database := {|
  countProducts := Ok (Some {| total := Fin (Z.of_nat (length rows)) |});
  selectProducts := fun orderBy limit offset =>
    match limit, offset with
    | Fin l, Fin o =>
        if int64 l && int64 o then
          sorted ← listing orderBy;
          Ok {| results := Some (limitOffset l o sorted) |}
        else Throw (D1Error "D1_ERROR: datatype mismatch")
    | _, _ => Throw (D1Error "D1_ERROR: datatype mismatch")
    end
|}.

(** The sample table, listed in the order of the stable sort. *)
Definition shelfStore : D1Database :=
  d1Store shelf (fun orderBy => orderRows orderBy shelf).

(** Proves that a literal integer is in the exact range. *)
Ltac safe_literal := unfold safeInteger; simpl; lia.

(** * Properties *)

(** ** Sanity checks of the built-ins *)

Example parseInt_examples :
  parseInt "20" = Fin 20 /\ parseInt "  -7px" = Fin (-7) /\
  parseInt "0x1F" = Fin 31 /\ parseInt "abc" = NaN /\ parseInt "" = NaN.
Proof. repeat split; reflexivity. Qed.

Example toLocaleString_examples :
  toLocaleString 1234567 = "1,234,567" /\ toLocaleString 980 = "980" /\
  toLocaleString (-1000) = "-1,000".
Proof. repeat split; reflexivity. Qed.

(** ** Numbers *)

Section NumFacts.
Implicit Types a b : Z.

Lemma leb_Fin a b : (Fin a <=? Fin b)%num = (a <=? b).
Proof. unfold Num.leb, Z.leb; simpl. by destruct (a ?= b). Qed.

Lemma ltb_Fin a b : (Fin a <? Fin b)%num = (a <? b).
Proof. unfold Num.ltb, Z.ltb; simpl. by destruct (a ?= b). Qed.

Lemma gtb_Fin a b : (Fin a >? Fin b)%num = (b <? a).
Proof.
  unfold Num.gtb, Z.ltb; simpl. rewrite (Z.compare_antisym a b).
  by destruct (a ?= b).
Qed.

Lemma geb_Fin a b : (Fin a >=? Fin b)%num = (b <=? a).
Proof.
  unfold Num.geb, Z.leb; simpl. rewrite (Z.compare_antisym a b).
  by destruct (a ?= b).
Qed.

Lemma strict_eq_Fin a b : (Fin a === Fin b)%num = (a =? b).
Proof.
  unfold Num.strict_eq; simpl.
  destruct (Z.compare_spec a b); symmetry;
    [apply Z.eqb_eq | apply Z.eqb_neq ..]; lia.
Qed.

Lemma min_Fin a b : Math.min (Fin a) (Fin b) = Fin (Z.min a b).
Proof. unfold Math.min, Z.min; simpl. by destruct (a ?= b). Qed.

Lemma ceil_div_Fin a b :
  b ≠ 0 → Math.ceil (Fin a / Fin b)%num = Fin (- ((- a) / b)).
Proof. intros Hb. simpl. by rewrite (proj2 (Z.eqb_neq b 0) Hb). Qed.

Lemma isCeiling_ceil a b : 0 < b → isCeiling (- ((- a) / b)) a b.
Proof.
  intros Hb. unfold isCeiling.
  pose proof (Z.mul_div_le (- a) b Hb).
  pose proof (Z.mul_succ_div_gt (- a) b Hb).
  nia.
Qed.

Lemma isCeiling_zero n a b :
  0 < b → 0 ≤ a → isCeiling n a b → (n = 0 ↔ a = 0).
Proof. unfold isCeiling. intros Hb Ha [Hlo Hhi]. split; intros ->; nia. Qed.

Lemma isCeiling_unique n m a b :
  0 < b → isCeiling n a b → isCeiling m a b → n = m.
Proof. unfold isCeiling. intros Hb [? ?] [? ?]. nia. Qed.

End NumFacts.

(** ** The table-backed store *)

Lemma insertBy_length le x rows :
  length (insertBy le x rows) = S (length rows).
Proof.
  induction rows as [|y rows IH]; simpl; [done|].
  destruct (le x y); simpl; by rewrite ?IH.
Qed.

Lemma sortBy_length le rows : length (sortBy le rows) = length rows.
Proof.
  induction rows as [|x rows IH]; simpl; [done|].
  by rewrite insertBy_length, IH.
Qed.

(** Every [ORDER BY] the handler can build is understood by the table store,
    and ordering keeps the number of rows. *)
Lemma orderRows_orderByOf sort rows :
  ∃ sorted, orderRows (orderByOf sort) rows = Ok sorted
            ∧ length sorted = length rows.
Proof.
  unfold orderByOf.
  destruct (String.eqb sort "price_desc");
    [|destruct (String.eqb sort "updated_desc");
      [|destruct (String.eqb sort "price_asc")]];
    unfold orderRows; simpl;
    (eexists; split; [reflexivity|apply sortBy_length]).
Qed.

Lemma limitOffset_beyond limit offset rows :
  Z.of_nat (length rows) ≤ offset → limitOffset limit offset rows = [].
Proof.
  intros Hoff. unfold limitOffset.
  rewrite drop_ge by lia. destruct (limit <? 0); [done|apply take_nil].
Qed.

Lemma limitOffset_length limit offset rows :
  0 ≤ limit → Z.of_nat (length (limitOffset limit offset rows)) ≤ limit.
Proof.
  intros Hl. unfold limitOffset.
  destruct (limit <? 0) eqn:E; [lia|].
  rewrite length_take. lia.
Qed.

(** ** The query engine *)

Lemma totalOf_Fin (t : Z) : 0 ≤ t → totalOf (Some {| total := Fin t |}) = Fin t.
Proof.
  intros Ht. unfold totalOf, Num.or; simpl.
  destruct (Z.eqb_spec t 0) as [->|]; done.
Qed.

(** C3.  For every count [t >= 0] returned by the store and every page size
    [l > 0], the page view reports [totalProducts = t] and a [totalPages]
    that is the ceiling of [t / l]; [totalPages] is [0] exactly when
    [t] is [0]. *)
Theorem C3_totalPages_is_ceiling
  (db : D1Database) (q : PageQuery) (t l : Z) (page : D1Result) :
  0 ≤ t → 0 < l →
  countProducts db = Ok (Some {| total := Fin t |}) →
  limitNum q = Fin l →
  selectProducts db (orderBy q) (limitNum q) (offset q) = Ok page →
  ∃ items pagination n,
    fetchPage db q = Ok (items, pagination)
    ∧ totalProducts pagination = Fin t
    ∧ totalPages pagination = Fin n
    ∧ isCeiling n t l
    ∧ (n = 0 ↔ t = 0).
Proof.
  intros Ht Hl Hcount Hlim Hsel.
  unfold fetchPage. rewrite Hcount. cbn [mbind Result_bind].
  rewrite Hsel. cbn [mbind Result_bind].
  rewrite totalOf_Fin by done. rewrite Hlim.
  rewrite ceil_div_Fin by lia.
  do 3 eexists. split; [reflexivity|]. simpl.
  pose proof (isCeiling_ceil t l Hl) as Hceil.
  split; [reflexivity|]. split; [reflexivity|]. split; [exact Hceil|].
  by apply (isCeiling_zero _ t l).
Qed.

Lemma C3_witness :
  ∃ items pagination n,
    fetchPage (tableStore shelf)
      {| sortParam := "price_asc"; pageNum := Fin 1; limitNum := Fin 2;
         offset := Fin 0; orderBy := "price ASC" |} = Ok (items, pagination)
    ∧ totalProducts pagination = Fin 5
    ∧ totalPages pagination = Fin n
    ∧ isCeiling n 5 2
    ∧ (n = 0 ↔ 5 = 0).
Proof.
  eapply (C3_totalPages_is_ceiling (tableStore shelf) _ 5 2);
    [lia | lia | reflexivity | reflexivity | reflexivity].
Defined.

(** C7.  A [sort] parameter outside the enumeration [price_asc],
    [price_desc], [updated_desc] (an absent one included) resolves to
    [ORDER BY price ASC], the very query issued for [price_asc]; resolving
    is a total function, and the table store accepts the resulting query. *)
Theorem C7_unrecognised_sort_is_price_asc (query : gmap string string) :
  (∀ s, query !! "sort" = Some s → s ∉ sortKeys) →
  let q := resolveQuery query in
  let q_asc := resolveQuery (<["sort" := "price_asc"]> query) in
  orderBy q = "price ASC"
  ∧ orderBy q = orderBy q_asc
  ∧ limitNum q = limitNum q_asc
  ∧ offset q = offset q_asc
  ∧ ∀ rows l o, limitNum q = Fin l → offset q = Fin o →
      ∃ items, selectProducts (tableStore rows) (orderBy q) (limitNum q) (offset q)
               = Ok {| results := Some items |}.
Proof.
  intros Hout q q_asc. subst q q_asc. unfold resolveQuery; simpl.
  rewrite lookup_insert_eq; simpl.
  rewrite !lookup_insert_ne by done.
  assert (orderByOf (default "price_asc" (query !! "sort")) = "price ASC") as Hob.
  { destruct (query !! "sort") as [s|] eqn:Hs; simpl; [|done].
    specialize (Hout s eq_refl). unfold orderByOf.
    destruct (String.eqb_spec s "price_desc") as [->|_].
    { exfalso. apply Hout. unfold sortKeys. set_solver. }
    destruct (String.eqb_spec s "updated_desc") as [->|_].
    { exfalso. apply Hout. unfold sortKeys. set_solver. }
    by destruct (String.eqb s "price_asc"). }
  rewrite Hob. repeat split; try done.
  intros rows l o -> ->. simpl. eexists. reflexivity.
Qed.

Lemma C7_witness :
  let query : gmap string string := {[ "sort" := "cheapest" ]} in
  let q := resolveQuery query in
  let q_asc := resolveQuery (<["sort" := "price_asc"]> query) in
  orderBy q = "price ASC"
  ∧ orderBy q = orderBy q_asc
  ∧ limitNum q = limitNum q_asc
  ∧ offset q = offset q_asc
  ∧ ∀ rows l o, limitNum q = Fin l → offset q = Fin o →
      ∃ items, selectProducts (tableStore rows) (orderBy q) (limitNum q) (offset q)
               = Ok {| results := Some items |}.
Proof.
  apply (C7_unrecognised_sort_is_price_asc {[ "sort" := "cheapest" ]}).
  intros s Hs. apply lookup_singleton_Some in Hs as [_ <-].
  unfold sortKeys. rewrite !not_elem_of_cons.
  repeat split; try discriminate. apply not_elem_of_nil.
Defined.

Lemma resolveQuery_offset query :
  offset (resolveQuery query)
  = ((pageNum (resolveQuery query) - Fin 1) * limitNum (resolveQuery query))%num.
Proof. reflexivity. Qed.

Lemma resolveQuery_orderBy query :
  orderBy (resolveQuery query) = orderByOf (sortParam (resolveQuery query)).
Proof. reflexivity. Qed.

Lemma safeInteger_int64 z : safeInteger z → int64 z = true.
Proof.
  unfold safeInteger, int64. intros Hz.
  apply andb_true_intro. split; [apply Z.leb_le|apply Z.ltb_lt]; lia.
Qed.

(** What the store returns for a request whose bound values are 64-bit
    integers. *)
Lemma fetchPage_d1Store rows listing q l o sorted :
  limitNum q = Fin l → offset q = Fin o →
  int64 l = true → int64 o = true →
  listing (orderBy q) = Ok sorted →
  fetchPage (d1Store rows listing) q
  = Ok (limitOffset l o sorted,
        {| currentPage := pageNum q;
           totalPages := Math.ceil (Fin (Z.of_nat (length rows)) / Fin l)%num;
           totalProducts := Fin (Z.of_nat (length rows));
           sort := sortParam q;
           limit := Fin l |}).
Proof.
  intros Hl Ho Hl64 Ho64 Hsorted. unfold fetchPage.
  cbn [countProducts selectProducts d1Store mbind Result_bind].
  rewrite totalOf_Fin by lia. rewrite Ho, Hl, Hl64, Ho64. cbn [andb].
  rewrite Hsorted. reflexivity.
Qed.

(** C1, within the exact range.  For every page [p >= 1] and page size
    [l > 0] such that [p], [l] and [(p - 1) * l] are integers a JavaScript
    number holds exactly, the offset bound to the query is [(p - 1) * l].
    The page number is not clamped: on a table of rows the page view keeps
    [currentPage = p], reports the number of rows as [totalProducts] and
    its ceiling quotient by [l] as [totalPages], holds at most [l] items,
    and holds none when [p] lies beyond [totalPages]. *)
Theorem C1_offset_and_unclamped_page
  (rows : list Product) (listing : string → Result (list Product))
  (sorted : list Product) (query : gmap string string) (p l : Z) :
  let q := resolveQuery query in
  pageNum q = Fin p → limitNum q = Fin l → 1 ≤ p → 0 < l →
  safeInteger p → safeInteger l → safeInteger ((p - 1) * l) →
  listing (orderBy q) = Ok sorted → length sorted = length rows →
  offset q = Fin ((p - 1) * l)
  ∧ ∃ items n,
      fetchPage (d1Store rows listing) q
      = Ok (items, {| currentPage := Fin p;
                      totalPages := Fin n;
                      totalProducts := Fin (Z.of_nat (length rows));
                      sort := sortParam q;
                      limit := Fin l |})
      ∧ isCeiling n (Z.of_nat (length rows)) l
      ∧ Z.of_nat (length items) ≤ l
      ∧ (n < p → items = []).
Proof.
  intros q Hp Hl Hp1 Hl0 Hsafep Hsafel Hsafeo Hsorted Hlen.
  assert (offset q = Fin ((p - 1) * l)) as Hoff.
  { subst q. rewrite resolveQuery_offset, Hp, Hl. reflexivity. }
  split; [exact Hoff|].
  exists (limitOffset l ((p - 1) * l) sorted), (- ((- Z.of_nat (length rows)) / l)).
  pose proof (isCeiling_ceil (Z.of_nat (length rows)) l Hl0) as Hceil.
  split; [|split; [exact Hceil|split]].
  - rewrite (fetchPage_d1Store rows listing q l ((p - 1) * l) sorted)
      by auto using safeInteger_int64.
    rewrite Hp, ceil_div_Fin by lia. reflexivity.
  - apply limitOffset_length. lia.
  - intros Hbeyond. apply limitOffset_beyond. rewrite Hlen.
    unfold isCeiling in Hceil. nia.
Qed.

Lemma C1_witness :
  let q := resolveQuery {[ "page" := "9"; "limit" := "2" ]} in
  offset q = Fin ((9 - 1) * 2)
  ∧ ∃ items n,
      fetchPage shelfStore q
      = Ok (items, {| currentPage := Fin 9;
                      totalPages := Fin n;
                      totalProducts := Fin (Z.of_nat (length shelf));
                      sort := sortParam q;
                      limit := Fin 2 |})
      ∧ isCeiling n (Z.of_nat (length shelf)) 2
      ∧ Z.of_nat (length items) ≤ 2
      ∧ (n < 9 → items = []).
Proof.
  eapply (C1_offset_and_unclamped_page shelf
            (λ orderBy, orderRows orderBy shelf) _
            {[ "page" := "9"; "limit" := "2" ]} 9 2);
    [reflexivity | reflexivity | lia | lia
    | safe_literal | safe_literal | safe_literal | reflexivity | reflexivity].
Defined.

Lemma C1_counterexample :
  let far : gmap string string :=
    {[ "page" := "9007199254740992"; "limit" := "2048" ]} in
  let farther : gmap string string := {[ "page" := "99999999999999999999" ]} in
  pageNum (resolveQuery far) = Fin (2 ^ 53)
  ∧ limitNum (resolveQuery far) = Fin 2048
  ∧ offset (resolveQuery far) = Fin ((2 ^ 53 - 1) * 2048)
  ∧ int64 ((2 ^ 53 - 1) * 2048) = false
  ∧ fetchPage shelfStore (resolveQuery far)
    = Throw (D1Error "D1_ERROR: datatype mismatch")
  ∧ response (handler shelfStore far) = c_html (renderError fetchErrorMessage)
  ∧ fetchPage shelfStore (resolveQuery farther)
    = Throw (D1Error "D1_ERROR: datatype mismatch")
  ∧ response (handler shelfStore farther)
    = c_html (renderError fetchErrorMessage).
Proof. repeat split; by vm_compute. Qed.

(** ** The page-link window *)

Lemma fmap_shift_seqZ (f : Z → num) (base len : Z) :
  (∀ i, f i = Fin (base + i)) → f <$> seqZ 0 len = Fin <$> seqZ base len.
Proof.
  intros Hf. rewrite <- (Z.add_0_r base) at 1.
  rewrite <- fmap_add_seqZ, <- list_fmap_compose.
  apply list_fmap_ext. intros _ i _. apply Hf.
Qed.

Section Window.
Variable pagination : Pagination.
Variables tp cp : Z.
Hypothesis Htp : totalPages pagination = Fin tp.
Hypothesis Hcp : currentPage pagination = Fin cp.

Lemma windowLength_Fin : 0 ≤ tp → windowLength pagination = Z.min 5 tp.
Proof.
  intros Hpos. unfold windowLength. rewrite Htp, min_Fin.
  unfold Num.toLength. lia.
Qed.

Lemma windowPage_Fin i :
  windowPage pagination i
  = Fin ((if tp <=? 5 then 1
          else if cp <=? 3 then 1
          else if cp >=? tp - 2 then tp - 4
          else cp - 2) + i).
Proof.
  unfold windowPage. rewrite Htp, Hcp. cbn [Num.sub Num.neg Num.add].
  rewrite !leb_Fin, geb_Fin, Z.geb_leb.
  repeat case_match; f_equal; lia.
Qed.

Lemma windowPages_spec :
  1 ≤ tp → windowPages pagination = Fin <$> specWindow tp cp.
Proof.
  intros Hpos. unfold windowPages, specWindow.
  rewrite windowLength_Fin by lia.
  rewrite (fmap_shift_seqZ _ _ _ windowPage_Fin).
  rewrite Z.geb_leb.
  destruct (Z.leb_spec tp 5); [by rewrite Z.min_r by lia|].
  rewrite Z.min_l by lia. by repeat case_match.
Qed.

Lemma pageLinks_windowPages :
  pageLinks pagination
  = (λ pageNum,
       if (pageNum === Fin cp)%num
       then Elem "span" [("class", "current")] [Text (Num.toString pageNum)]
       else navLink pageNum (sort pagination) (Num.toString pageNum))
    <$> windowPages pagination.
Proof.
  unfold pageLinks, windowPages. rewrite <- list_fmap_compose.
  apply list_fmap_ext. intros _ i _. unfold pageLink; simpl. by rewrite Hcp.
Qed.

Lemma specWindow_length : 1 ≤ tp → (length (specWindow tp cp) ≤ 5)%nat.
Proof.
  intros Hpos. unfold specWindow.
  repeat case_match; rewrite length_seqZ; lia.
Qed.

End Window.

Lemma pageLinks_spec (pagination : Pagination) (tp cp : Z) :
  totalPages pagination = Fin tp → currentPage pagination = Fin cp →
  1 ≤ tp →
  windowPages pagination = Fin <$> specWindow tp cp
  ∧ pageLinks pagination
    = (λ n, if n =? cp
            then Elem "span" [("class", "current")] [Text (Num.decimal n)]
            else navLink (Fin n) (sort pagination) (Num.decimal n))
      <$> specWindow tp cp.
Proof.
  intros Htp Hcp Hpos.
  pose proof (windowPages_spec pagination tp cp Htp Hcp Hpos) as Hwin.
  split; [exact Hwin|].
  rewrite (pageLinks_windowPages pagination cp Hcp), Hwin, <- list_fmap_compose.
  apply list_fmap_ext. intros _ n _. simpl. by rewrite strict_eq_Fin.
Qed.

Example summaryText_example :
  summaryText {| currentPage := Fin 3; totalPages := Fin 3;
                 totalProducts := Fin 45; sort := "price_asc";
                 limit := Fin 20 |}
  = "全45件中 41-45件を表示".
Proof. reflexivity. Qed.

Example specWindow_examples :
  specWindow 12 1 = [1; 2; 3; 4; 5] ∧ specWindow 12 7 = [5; 6; 7; 8; 9]
  ∧ specWindow 12 12 = [8; 9; 10; 11; 12] ∧ specWindow 3 2 = [1; 2; 3].
Proof. repeat split; reflexivity. Qed.

(** ** Failure of the store *)

Lemma handler_caught db query error :
  (view ← fetchPage db (resolveQuery query);
   htmlContent ← renderProductList view.1 view.2;
   Ok (c_html htmlContent)) = Throw error →
  handler db query
  = {| response := c_html (renderError fetchErrorMessage);
       logged := [("Error fetching products:", error)] |}.
Proof. intros Hthrow. unfold handler. cbv zeta. by rewrite Hthrow. Qed.

Lemma fetchPage_count_fails db q e :
  countProducts db = Throw e → fetchPage db q = Throw e.
Proof. intros Hcount. unfold fetchPage. by rewrite Hcount. Qed.

Lemma fetchPage_select_fails db q e :
  selectProducts db (orderBy q) (limitNum q) (offset q) = Throw e →
  ∃ e', fetchPage db q = Throw e'.
Proof.
  intros Hsel. unfold fetchPage.
  destruct (countProducts db) as [countResult|e']; cbn [mbind Result_bind].
  - rewrite Hsel. by exists e.
  - by exists e'.
Qed.

(** C4.  When the count or the slice fetch of the store rejects, the
    handler answers with the document of [renderError] for the fixed
    message: the response holds no product grid and no product card, and
    the error itself only reaches [console.error]. *)
Theorem C4_store_failure_renders_error
  (db : D1Database) (query : gmap string string) (e : Error) :
  let q := resolveQuery query in
  countProducts db = Throw e
  ∨ selectProducts db (orderBy q) (limitNum q) (offset q) = Throw e →
  response (handler db query) = c_html (renderError fetchErrorMessage)
  ∧ byClass "products-grid" (body (response (handler db query))) = []
  ∧ byClass "product-card" (body (response (handler db query))) = []
  ∧ ∃ caught, logged (handler db query) = [("Error fetching products:", caught)].
Proof.
  intros q Hfail.
  assert (∃ e', fetchPage db q = Throw e') as [e' Hthrow].
  { destruct Hfail as [Hcount|Hsel].
    - exists e. by apply fetchPage_count_fails.
    - by apply fetchPage_select_fails with e. }
  rewrite (handler_caught db query e') by (fold q; by rewrite Hthrow).
  cbn [response logged]. split; [done|].
  split; [by vm_compute|]. split; [by vm_compute|]. by exists e'.
Qed.

Lemma C4_witness :
  let db := fetchFailingStore 45 (D1Error "D1_ERROR: network connection lost") in
  response (handler db ∅) = c_html (renderError fetchErrorMessage)
  ∧ byClass "products-grid" (body (response (handler db ∅))) = []
  ∧ byClass "product-card" (body (response (handler db ∅))) = []
  ∧ ∃ caught, logged (handler db ∅) = [("Error fetching products:", caught)].
Proof.
  apply (C4_store_failure_renders_error
           (fetchFailingStore 45 (D1Error "D1_ERROR: network connection lost"))
           ∅ (D1Error "D1_ERROR: network connection lost")).
  right. reflexivity.
Defined.

(** ** The empty state *)

(** C9.  For an empty sequence of products, whatever the pagination data,
    [renderProductList] returns a document with the single no-products
    block, no product grid, and no pagination control: no pagination block,
    no disabled or current indicator, no link at all. *)
Theorem C9_empty_page_placeholder (pagination : Pagination) :
  ∃ doc,
    renderProductList [] pagination = Ok doc
    ∧ byClass "no-products" doc = [noProducts]
    ∧ byClass "products-grid" doc = []
    ∧ byClass "product-card" doc = []
    ∧ byClass "pagination" doc = []
    ∧ byClass "disabled" doc = []
    ∧ byClass "current" doc = []
    ∧ byTag "a" doc = []
    ∧ navHrefs doc = [].
Proof. eexists. split; [reflexivity|]. repeat split. Qed.

(** ** A missing price *)

(** C6.  What the code does on a row whose price is NULL:
    [renderProductList] throws a [TypeError] instead of returning the
    catalog document, and the handler answers with the error document. *)
Theorem C6_null_price_throws :
  let product := rice "a" None "2025-01-03" in
  let pagination := {| currentPage := Fin 1; totalPages := Fin 1;
                       totalProducts := Fin 1; sort := "price_asc";
                       limit := Fin 20 |} in
  price product = None
  ∧ renderProductList [product] pagination
    = Throw (TypeError "Cannot read properties of null (reading 'toLocaleString')")
  ∧ handler (tableStore [product]) ∅
    = {| response := c_html (renderError fetchErrorMessage);
         logged := [("Error fetching products:",
                     TypeError "Cannot read properties of null (reading 'toLocaleString')")] |}.
Proof. split; [reflexivity|]. split; reflexivity. Qed.

(** ** Documents *)

Lemma nodes_app d1 d2 : nodes (d1 ++ d2) = nodes d1 ++ nodes d2.
Proof. unfold nodes. apply flat_map_app. Qed.

Lemma byClass_app c d1 d2 : byClass c (d1 ++ d2) = byClass c d1 ++ byClass c d2.
Proof. unfold byClass. rewrite nodes_app. apply List.filter_app. Qed.

Lemma byClass_cons c h doc : byClass c (h :: doc) = byClass c [h] ++ byClass c doc.
Proof. apply (byClass_app c [h] doc). Qed.

Lemma byClass_Elem c tag attrs children :
  byClass c [Elem tag attrs children]
  = (if hasClass c (Elem tag attrs children)
     then [Elem tag attrs children] else [])
    ++ byClass c children.
Proof.
  unfold byClass, nodes. cbn [flat_map descendants]. rewrite app_nil_r.
  cbn [List.filter]. by destruct (hasClass c _).
Qed.

Lemma byClass_nil_Forall c doc :
  Forall (λ h, byClass c [h] = []) doc → byClass c doc = [].
Proof.
  induction 1 as [|h doc Hh _ IH]; [done|].
  by rewrite byClass_cons, Hh, IH.
Qed.

(** The frame of the catalog document carries no pagination block. *)
Lemma byClass_pagination_catalogDocument listing :
  byClass "pagination" (catalogDocument listing) = byClass "pagination" listing.
Proof.
  unfold catalogDocument.
  rewrite byClass_cons, byClass_Elem, (byClass_cons _ (pageHead _ _)), byClass_Elem.
  rewrite (byClass_cons _ (Elem "div" _ _)), byClass_Elem, (byClass_cons _ catalogHeader).
  change (byClass "pagination" [Doctype]) with (@nil Html).
  change (byClass "pagination" [pageHead _ _]) with (@nil Html).
  change (byClass "pagination" [catalogHeader]) with (@nil Html).
  change (byClass "pagination" [Elem "script" _ _]) with (@nil Html).
  change (hasClass "pagination" (Elem "html" _ _)) with false.
  change (hasClass "pagination" (Elem "body" _ _)) with false.
  change (hasClass "pagination" (Elem "div" _ _)) with false.
  cbn [app]. apply app_nil_r.
Qed.

(** *** Product cards *)

Lemma renderCard_priced product :
  is_Some (price product) → ∃ card, renderCard product = Ok card.
Proof. intros [v Hv]. unfold renderCard. rewrite Hv. by eexists. Qed.

Lemma renderCard_no_pagination product card :
  renderCard product = Ok card → byClass "pagination" [card] = [].
Proof.
  unfold renderCard. destruct (price product); [|done].
  destruct (truthyString (image_url product)); intros [= <-]; reflexivity.
Qed.

Lemma mapM_renderCard_priced products :
  Forall (λ p, is_Some (price p)) products →
  ∃ cards, mapM renderCard products = Ok cards.
Proof.
  induction 1 as [|p products Hp _ [cards IH]]; [by eexists|].
  destruct (renderCard_priced p Hp) as [card Hcard].
  exists (card :: cards). cbn [mapM]. by rewrite Hcard, IH.
Qed.

Lemma mapM_renderCard_no_pagination products cards :
  mapM renderCard products = Ok cards → byClass "pagination" cards = [].
Proof.
  revert cards. induction products as [|p products IH]; intros cards.
  - by intros [= <-].
  - cbn [mapM]. destruct (renderCard p) as [card|] eqn:Hcard; [|done].
    destruct (mapM renderCard products) as [rest|]; [|done].
    intros [= <-]. rewrite byClass_cons.
    by rewrite (renderCard_no_pagination p card Hcard), (IH rest eq_refl).
Qed.

Lemma renderCard_Throw product e :
  renderCard product = Throw e →
  e = TypeError "Cannot read properties of null (reading 'toLocaleString')".
Proof. unfold renderCard. destruct (price product); [done|]. by intros [= <-]. Qed.

Lemma renderCard_null_price product :
  price product = None →
  renderCard product
  = Throw (TypeError "Cannot read properties of null (reading 'toLocaleString')").
Proof. intros Hnull. unfold renderCard. by rewrite Hnull. Qed.

(** A product without a price stops the rendering of the whole page. *)
Lemma mapM_renderCard_null_price products product :
  product ∈ products → price product = None →
  mapM renderCard products
  = Throw (TypeError "Cannot read properties of null (reading 'toLocaleString')").
Proof.
  intros Hin Hnull. induction Hin as [p products|p q products _ IH]; cbn [mapM].
  - by rewrite (renderCard_null_price p Hnull).
  - destruct (renderCard q) as [card|e] eqn:Hq; cbn [mbind Result_bind].
    + by rewrite IH.
    + by rewrite (renderCard_Throw q e Hq).
Qed.

Lemma renderProductList_null_price products pagination product :
  product ∈ products → price product = None →
  renderProductList products pagination
  = Throw (TypeError "Cannot read properties of null (reading 'toLocaleString')").
Proof.
  intros Hin Hnull. unfold renderProductList, renderListing.
  destruct products as [|p products]; [by apply elem_of_nil in Hin|].
  cbn [length Nat.ltb Nat.leb].
  by rewrite (mapM_renderCard_null_price _ _ Hin Hnull).
Qed.

Example buy_link_falls_back_to_product_url :
  renderCard (rice "a" (Some 2980) "2025-01-03")
  = Ok (Elem "div" [("class", "product-card")]
          [Elem "img" [("src", "https://img.example/a.jpg");
                       ("alt", "コシヒカリ 5kg");
                       ("class", "product-image");
                       ("onerror", "this.style.display='none'")] [];
           Elem "div" [("class", "product-info")]
             [Elem "div" [("class", "product-name")] [Text "コシヒカリ 5kg"];
              Elem "div" [("class", "product-price")] [Text "¥2,980"];
              Elem "div" [("class", "product-site")] [Text "楽天"];
              Elem "a" [("href", "https://shop.example/a");
                        ("target", "_blank");
                        ("rel", "noopener noreferrer");
                        ("class", "buy-button")]
                [Text "詳細を見る"]]]).
Proof. reflexivity. Qed.

(** *** The pagination block *)

Lemma renderControls_no_pagination pagination :
  byClass "pagination" [renderControls pagination] = [].
Proof.
  unfold renderControls, sortOption.
  by repeat destruct (String.eqb (sort pagination) _).
Qed.

Lemma prevControl_cases pagination :
  prevControl pagination = disabledControl "前へ"
  ∨ ∃ n, prevControl pagination = navLink n (sort pagination) "前へ".
Proof. unfold prevControl. case_match; eauto. Qed.

Lemma nextControl_cases pagination :
  nextControl pagination = disabledControl "次へ"
  ∨ ∃ n, nextControl pagination = navLink n (sort pagination) "次へ".
Proof. unfold nextControl. case_match; eauto. Qed.

Lemma pageLink_cases pagination i :
  (∃ n, pageLink pagination i = Elem "span" [("class", "current")] [Text (Num.toString n)])
  ∨ ∃ n, pageLink pagination i = navLink n (sort pagination) (Num.toString n).
Proof. unfold pageLink. cbv zeta. case_match; eauto. Qed.

Lemma renderPagination_children_no_pagination pagination :
  byClass "pagination" (childrenOf (renderPagination pagination)) = [].
Proof.
  apply byClass_nil_Forall. cbn [childrenOf renderPagination].
  apply Forall_cons. split; [|apply Forall_app; split].
  - by destruct (prevControl_cases pagination) as [->|[n ->]].
  - unfold pageLinks. apply Forall_fmap, Forall_forall. intros i _. unfold compose.
    by destruct (pageLink_cases pagination i) as [[n ->]|[n ->]].
  - apply Forall_singleton.
    by destruct (nextControl_cases pagination) as [->|[n ->]].
Qed.

Lemma byClass_pagination_block pagination :
  byClass "pagination" [renderPagination pagination] = [renderPagination pagination].
Proof.
  unfold renderPagination at 1. rewrite byClass_Elem.
  change (prevControl pagination :: _) with (childrenOf (renderPagination pagination)).
  by rewrite renderPagination_children_no_pagination.
Qed.

(** The listing of a non-empty page holds the pagination block exactly when
    there is more than one page. *)
Lemma byClass_pagination_listing products pagination listing :
  products ≠ [] →
  renderListing products pagination = Ok listing →
  byClass "pagination" listing
  = if (totalPages pagination >? Fin 1)%num then [renderPagination pagination] else [].
Proof.
  intros Hne. unfold renderListing.
  destruct products as [|p products]; [done|]. cbn [length Nat.ltb Nat.leb].
  destruct (mapM renderCard (p :: products)) as [cards|] eqn:Hcards; [|done].
  intros [= <-].
  rewrite byClass_cons, renderControls_no_pagination.
  rewrite (byClass_cons _ (Elem "div" _ _)), byClass_Elem.
  rewrite (mapM_renderCard_no_pagination _ _ Hcards).
  change (hasClass "pagination" (Elem "div" _ _)) with false. cbn [app].
  case_match; [apply byClass_pagination_block|done].
Qed.

Lemma renderProductList_Ok products pagination doc :
  renderProductList products pagination = Ok doc →
  ∃ listing, renderListing products pagination = Ok listing
             ∧ doc = catalogDocument listing.
Proof.
  unfold renderProductList.
  destruct (renderListing products pagination) as [listing|]; [|done].
  intros [= <-]. by exists listing.
Qed.

Lemma renderProductList_priced products pagination :
  Forall (λ p, is_Some (price p)) products →
  ∃ listing, renderListing products pagination = Ok listing
             ∧ renderProductList products pagination = Ok (catalogDocument listing).
Proof.
  intros Hpriced. unfold renderProductList, renderListing.
  destruct (mapM_renderCard_priced products Hpriced) as [cards ->].
  destruct (0 <? length products)%nat; eexists; split; reflexivity.
Qed.

(** ** The rendered page-link window *)

(** C2, for two pages or more.  For every [totalPages >= 2] and
    [currentPage] in [[1, totalPages]], the pagination block of the rendered
    document shows, between Previous and Next, exactly the pages of the
    specified window ([1..totalPages] when [totalPages <= 5], [1..5] when
    [currentPage <= 3], [totalPages-4..totalPages] when
    [currentPage >= totalPages - 2], [currentPage-2..currentPage+2]
    otherwise), at most five of them, the current page as an indicator and
    the others as links. *)
Theorem C2_rendered_page_link_window
  (products : list Product) (pagination : Pagination) (tp cp : Z) :
  products ≠ [] →
  Forall (λ p, is_Some (price p)) products →
  totalPages pagination = Fin tp → currentPage pagination = Fin cp →
  2 ≤ tp → 1 ≤ cp ≤ tp →
  ∃ doc,
    renderProductList products pagination = Ok doc
    ∧ byClass "pagination" doc
      = [Elem "div" [("class", "pagination")]
           (prevControl pagination
            :: ((λ n, if n =? cp
                      then Elem "span" [("class", "current")] [Text (Num.decimal n)]
                      else navLink (Fin n) (sort pagination) (Num.decimal n))
                <$> specWindow tp cp)
            ++ [nextControl pagination])]
    ∧ windowPages pagination = Fin <$> specWindow tp cp
    ∧ (length (specWindow tp cp) ≤ 5)%nat.
Proof.
  intros Hne Hpriced Htp Hcp Hmany Hrange.
  destruct (renderProductList_priced products pagination Hpriced)
    as (listing & Hlisting & Hdoc).
  destruct (pageLinks_spec pagination tp cp Htp Hcp) as [Hwin Hlinks]; [lia|].
  exists (catalogDocument listing). split; [exact Hdoc|].
  split; [|split; [exact Hwin|apply specWindow_length; lia]].
  rewrite byClass_pagination_catalogDocument.
  rewrite (byClass_pagination_listing products pagination listing Hne Hlisting).
  rewrite Htp, gtb_Fin, (proj2 (Z.ltb_lt 1 tp)) by lia.
  unfold renderPagination. by rewrite Hlinks.
Qed.

Lemma C2_witness :
  let pagination := {| currentPage := Fin 7; totalPages := Fin 12;
                       totalProducts := Fin 231; sort := "price_desc";
                       limit := Fin 20 |} in
  ∃ doc,
    renderProductList shelf pagination = Ok doc
    ∧ byClass "pagination" doc
      = [Elem "div" [("class", "pagination")]
           (prevControl pagination
            :: ((λ n, if n =? 7
                      then Elem "span" [("class", "current")] [Text (Num.decimal n)]
                      else navLink (Fin n) (sort pagination) (Num.decimal n))
                <$> specWindow 12 7)
            ++ [nextControl pagination])]
    ∧ windowPages pagination = Fin <$> specWindow 12 7
    ∧ (length (specWindow 12 7) ≤ 5)%nat.
Proof.
  apply (C2_rendered_page_link_window shelf
           {| currentPage := Fin 7; totalPages := Fin 12;
              totalProducts := Fin 231; sort := "price_desc";
              limit := Fin 20 |} 12 7).
  - discriminate.
  - unfold shelf. repeat (apply Forall_cons; split; [by eexists|]). apply Forall_nil_2.
  - reflexivity.
  - reflexivity.
  - lia.
  - lia.
Defined.

Lemma C2_counterexample :
  ∃ doc,
    renderProductList [rice "b" (Some 1980) "2025-01-01"]
      {| currentPage := Fin 1; totalPages := Fin 1; totalProducts := Fin 1;
         sort := "price_asc"; limit := Fin 20 |} = Ok doc
    ∧ specWindow 1 1 = [1]
    ∧ length (byClass "product-card" doc) = 1%nat
    ∧ byClass "current" doc = []
    ∧ byClass "pagination" doc = []
    ∧ navHrefs doc = [].
Proof.
  eexists. split; [reflexivity|]. split; [reflexivity|].
  split; [reflexivity|]. split; [reflexivity|]. split; reflexivity.
Qed.

(** ** Previous and Next *)

(** C8, for two pages or more.  On a rendered non-empty page with
    [totalPages > 1] and [currentPage] in [[1, totalPages]], the pagination
    block starts with the Previous control, which is the disabled indicator
    exactly when [currentPage = 1] and a link to [currentPage - 1]
    otherwise, and ends with the Next control, which is the disabled
    indicator exactly when [currentPage = totalPages] and a link to
    [currentPage + 1] otherwise. *)
Theorem C8_prev_next_controls
  (products : list Product) (pagination : Pagination) (tp cp : Z) :
  products ≠ [] →
  Forall (λ p, is_Some (price p)) products →
  totalPages pagination = Fin tp → currentPage pagination = Fin cp →
  1 < tp → 1 ≤ cp ≤ tp →
  ∃ doc,
    renderProductList products pagination = Ok doc
    ∧ byClass "pagination" doc
      = [Elem "div" [("class", "pagination")]
           (prevControl pagination :: pageLinks pagination
            ++ [nextControl pagination])]
    ∧ prevControl pagination
      = (if cp =? 1 then disabledControl "前へ"
         else navLink (Fin (cp - 1)) (sort pagination) "前へ")
    ∧ nextControl pagination
      = (if cp =? tp then disabledControl "次へ"
         else navLink (Fin (cp + 1)) (sort pagination) "次へ").
Proof.
  intros Hne Hpriced Htp Hcp Hmany Hrange.
  destruct (renderProductList_priced products pagination Hpriced)
    as (listing & Hlisting & Hdoc).
  exists (catalogDocument listing). split; [exact Hdoc|]. split; [|split].
  - rewrite byClass_pagination_catalogDocument.
    rewrite (byClass_pagination_listing products pagination listing Hne Hlisting).
    rewrite Htp, gtb_Fin. by rewrite (proj2 (Z.ltb_lt 1 tp) Hmany).
  - unfold prevControl. rewrite Hcp, gtb_Fin. cbn [Num.sub Num.neg Num.add].
    destruct (Z.eqb_spec cp 1) as [->|Hcp1]; [done|].
    by rewrite (proj2 (Z.ltb_lt 1 cp)) by lia.
  - unfold nextControl. rewrite Hcp, Htp, ltb_Fin. cbn [Num.add].
    destruct (Z.eqb_spec cp tp) as [->|Hcptp].
    + by rewrite Z.ltb_irrefl.
    + by rewrite (proj2 (Z.ltb_lt cp tp)) by lia.
Qed.

Lemma C8_witness :
  let pagination := {| currentPage := Fin 3; totalPages := Fin 3;
                       totalProducts := Fin 5; sort := "price_asc";
                       limit := Fin 2 |} in
  ∃ doc,
    renderProductList [rice "e" (Some 4200) "2025-01-05"] pagination = Ok doc
    ∧ byClass "pagination" doc
      = [Elem "div" [("class", "pagination")]
           (prevControl pagination :: pageLinks pagination
            ++ [nextControl pagination])]
    ∧ prevControl pagination
      = (if 3 =? 1 then disabledControl "前へ"
         else navLink (Fin (3 - 1)) (sort pagination) "前へ")
    ∧ nextControl pagination
      = (if 3 =? 3 then disabledControl "次へ"
         else navLink (Fin (3 + 1)) (sort pagination) "次へ").
Proof.
  apply (C8_prev_next_controls [rice "e" (Some 4200) "2025-01-05"]
           {| currentPage := Fin 3; totalPages := Fin 3;
              totalProducts := Fin 5; sort := "price_asc"; limit := Fin 2 |} 3 3).
  - discriminate.
  - apply Forall_singleton. by eexists.
  - reflexivity.
  - reflexivity.
  - lia.
  - lia.
Defined.

Lemma C8_counterexample :
  ∃ items pagination doc,
    fetchPage (tableStore shelf) (resolveQuery ∅) = Ok (items, pagination)
    ∧ length items = 5%nat
    ∧ currentPage pagination = Fin 1
    ∧ totalPages pagination = Fin 1
    ∧ renderProductList items pagination = Ok doc
    ∧ body (response (handler (tableStore shelf) ∅)) = doc
    ∧ length (byClass "product-card" doc) = 5%nat
    ∧ byClass "disabled" doc = []
    ∧ byClass "pagination" doc = []
    ∧ navHrefs doc = [].
Proof.
  do 3 eexists. split; [reflexivity|]. split; [reflexivity|].
  split; [reflexivity|]. split; [reflexivity|]. split; [reflexivity|].
  split; [reflexivity|]. split; [reflexivity|]. split; [reflexivity|].
  split; reflexivity.
Qed.

(** ** Strings and link targets *)

Lemma hasChar_app c a b : hasChar c (a +:+ b) = hasChar c a || hasChar c b.
Proof.
  induction a as [|x a IH]; simpl; [done|].
  by rewrite IH, orb_assoc.
Qed.

Lemma cutAt_app sep a b :
  hasChar sep a = false →
  cutAt sep (a +:+ b) = (a +:+ (cutAt sep b).1, (cutAt sep b).2).
Proof.
  induction a as [|x a IH]; simpl.
  - intros _. change ("" +:+ b) with b. by destruct (cutAt sep b).
  - intros [Hx Ha]%orb_false_elim. rewrite Hx, (IH Ha). done.
Qed.

Lemma cutAt_found sep a b :
  hasChar sep a = false → cutAt sep (a +:+ String sep b) = (a, b).
Proof.
  intros Ha. rewrite (cutAt_app _ _ _ Ha). simpl.
  rewrite Ascii.eqb_refl. simpl. f_equal.
  clear Ha. induction a as [|x a IH]; [done|].
  change (String x (a +:+ "") = String x a). by rewrite IH.
Qed.

Lemma hasChar_cutAt c sep s :
  hasChar c s = false → hasChar c (cutAt sep s).1 = false.
Proof.
  induction s as [|x s IH]; simpl; [done|].
  intros [Hx Hs]%orb_false_elim.
  destruct (Ascii.eqb x sep); [done|].
  specialize (IH Hs). destruct (cutAt sep s) as [before after]; simpl in *.
  by rewrite Hx, IH.
Qed.

Lemma splitOn_clean sep s : hasChar sep s = false → splitOn sep s = [s].
Proof.
  induction s as [|x s IH]; simpl; [done|].
  intros [Hx Hs]%orb_false_elim. by rewrite Hx, (IH Hs).
Qed.

Lemma splitOn_app sep a b :
  hasChar sep a = false →
  splitOn sep (a +:+ String sep b) = a :: splitOn sep b.
Proof.
  induction a as [|x a IH]; simpl.
  - intros _. by rewrite Ascii.eqb_refl.
  - intros [Hx Ha]%orb_false_elim. by rewrite Hx, (IH Ha).
Qed.

(** The digits of a number hold no separator of a query string. *)
Lemma hasChar_string_of_uint c d :
  digitValue c = None → hasChar c (NilEmpty.string_of_uint d) = false.
Proof.
  intros Hc.
  induction d; cbn [hasChar NilEmpty.string_of_uint]; [done|..];
    rewrite IHd, orb_false_r;
    apply (proj2 (Ascii.eqb_neq _ _)); intros <-; discriminate Hc.
Qed.

Lemma hasChar_toString c n :
  digitValue c = None → c ≠ "-"%char → hasChar c (Num.toString n) = false.
Proof.
  intros Hc Hminus.
  assert (∀ x : ascii, digitValue x ≠ None → Ascii.eqb x c = false) as Hletter.
  { intros x Hx. apply (proj2 (Ascii.eqb_neq _ _)). by intros ->. }
  assert (Ascii.eqb "-" c = false) as Hdash.
  { apply (proj2 (Ascii.eqb_neq _ _)). by intros <-. }
  destruct n as [| | |z]; cbn [Num.toString hasChar].
  - by rewrite !Hletter.
  - by rewrite !Hletter.
  - by rewrite Hdash, !Hletter.
  - unfold Num.decimal, NilZero.string_of_int, NilZero.string_of_uint.
    destruct (Z.to_int z) as [d|d]; cbn [hasChar]; rewrite ?Hdash, ?orb_false_l.
    + destruct d; try apply (hasChar_string_of_uint c _ Hc).
      cbn [hasChar]. by rewrite Hletter.
    + destruct d; try apply (hasChar_string_of_uint c _ Hc).
      cbn [hasChar]. by rewrite Hletter.
Qed.

(** The parameters a request carries after following a navigation link whose
    sort token holds no [&]. *)
Lemma queryOfHref_pageHref n sort :
  hasChar "&" sort = false →
  queryOfHref (pageHref n sort)
  = <["page" := Num.toString n]> (<["sort" := (cutAt "#" sort).1]> ∅).
Proof.
  intros Hsort. unfold pageHref, queryOfHref.
  change ("?page=" +:+ Num.toString n +:+ "&sort=" +:+ sort)
    with (String "?" (("page=" +:+ Num.toString n)
                      +:+ String "&" ("sort=" +:+ sort))).
  assert (hasChar "#" ("page=" +:+ Num.toString n) = false) as Hhash.
  { rewrite hasChar_app, hasChar_toString by done. done. }
  assert (hasChar "&" ("page=" +:+ Num.toString n) = false) as Hamp.
  { rewrite hasChar_app, hasChar_toString by done. done. }
  cbv beta iota. rewrite (cutAt_app _ _ _ Hhash). cbn [fst].
  change (String "&" ("sort=" +:+ sort)) with ("&sort=" +:+ sort).
  rewrite (cutAt_app "#" "&sort=" sort eq_refl). cbn [fst].
  change ("&sort=" +:+ (cutAt "#" sort).1)
    with (String "&" ("sort=" +:+ (cutAt "#" sort).1)).
  rewrite (splitOn_app _ _ _ Hamp).
  rewrite splitOn_clean.
  2:{ rewrite hasChar_app. simpl. by apply hasChar_cutAt. }
  cbn [fmap list_fmap].
  change ("page=" +:+ Num.toString n)
    with ("page" +:+ String "=" (Num.toString n)).
  change ("sort=" +:+ (cutAt "#" sort).1)
    with ("sort" +:+ String "=" (cutAt "#" sort).1).
  by rewrite !cutAt_found.
Qed.

(** ** Navigation links *)

Lemma navLink_child pagination link :
  link ∈ childrenOf (renderPagination pagination) →
  hasTag "a" link = true →
  ∃ n label, link = navLink n (sort pagination) label.
Proof.
  cbn [childrenOf renderPagination].
  intros [->|[Hin| ->%list_elem_of_singleton]%elem_of_app]%elem_of_cons Htag.
  - destruct (prevControl_cases pagination) as [Heq|[n Heq]];
      rewrite Heq in *; [done|eauto].
  - unfold pageLinks in Hin. apply list_elem_of_fmap in Hin as (i & -> & _).
    destruct (pageLink_cases pagination i) as [[n Heq]|[n Heq]];
      rewrite Heq in *; [done|eauto].
  - destruct (nextControl_cases pagination) as [Heq|[n Heq]];
      rewrite Heq in *; [done|eauto].
Qed.

(** Every target of a navigation link is built by [pageHref] from a page
    number and the sort token of the page view. *)
Lemma navHrefs_pageHref products pagination doc href :
  renderProductList products pagination = Ok doc →
  href ∈ navHrefs doc →
  ∃ n, href = pageHref n (sort pagination).
Proof.
  intros (listing & Hlisting & ->)%renderProductList_Ok.
  unfold navHrefs. rewrite byClass_pagination_catalogDocument.
  destruct products as [|p products].
  { injection Hlisting as <-. by intros ?%elem_of_nil. }
  assert (p :: products ≠ []) as Hne by done.
  rewrite (byClass_pagination_listing _ _ _ Hne Hlisting).
  destruct (totalPages pagination >? Fin 1)%num; [|by intros ?%elem_of_nil].
  intros (block & Hhref & ->%list_elem_of_singleton)%list_elem_of_bind.
  apply list_elem_of_bind in Hhref as (link & Hhref & Hlink).
  apply list_elem_of_In, List.filter_In in Hlink as [Hchild Htag].
  apply list_elem_of_In in Hchild.
  destruct (navLink_child pagination link Hchild Htag) as (n & label & ->).
  exists n. cbn in Hhref. by apply list_elem_of_singleton in Hhref.
Qed.

(** C10, for sort tokens without [&].  Every navigation link of a rendered
    document has the target [?page=<n>&sort=<sort>] with the sort token of
    the page view inserted as it is.  When that token holds no [&], the
    link carries exactly the parameters [page] and [sort], no [limit], and
    the request made by following it runs with the default page size 20. *)
Theorem C10_nav_links_carry_page_and_sort
  (products : list Product) (pagination : Pagination) (doc : list Html)
  (href : string) :
  renderProductList products pagination = Ok doc →
  href ∈ navHrefs doc →
  hasChar "&" (sort pagination) = false →
  (∃ n, href = pageHref n (sort pagination))
  ∧ dom (queryOfHref href) = ({["page"; "sort"]} : gset string)
  ∧ queryOfHref href !! "limit" = None
  ∧ limitNum (resolveQuery (queryOfHref href)) = Fin 20.
Proof.
  intros Hdoc Hhref Hsort.
  destruct (navHrefs_pageHref _ _ _ _ Hdoc Hhref) as [n ->].
  split; [by exists n|].
  rewrite (queryOfHref_pageHref n _ Hsort).
  assert ((<["page" := Num.toString n]>
             (<["sort" := (cutAt "#" (sort pagination)).1]> ∅)
           : gmap string string) !! "limit" = None) as Hlimit.
  { by rewrite !lookup_insert_ne, lookup_empty. }
  split; [|split; [exact Hlimit|]].
  - rewrite !dom_insert_L, dom_empty_L. set_solver.
  - unfold resolveQuery. cbn [limitNum]. by rewrite Hlimit.
Qed.

Lemma C10_witness :
  let pagination := {| currentPage := Fin 2; totalPages := Fin 3;
                       totalProducts := Fin 5; sort := "updated_desc";
                       limit := Fin 2 |} in
  let href := "?page=3&sort=updated_desc" in
  (∃ n, href = pageHref n (sort pagination))
  ∧ dom (queryOfHref href) = ({["page"; "sort"]} : gset string)
  ∧ queryOfHref href !! "limit" = None
  ∧ limitNum (resolveQuery (queryOfHref href)) = Fin 20.
Proof.
  apply (C10_nav_links_carry_page_and_sort
           [rice "a" (Some 2980) "2025-01-03"; rice "c" (Some 3480) "2025-01-02"]
           {| currentPage := Fin 2; totalPages := Fin 3;
              totalProducts := Fin 5; sort := "updated_desc"; limit := Fin 2 |}
           _ "?page=3&sort=updated_desc" eq_refl).
  - apply list_elem_of_In. vm_compute. tauto.
  - reflexivity.
Defined.

Lemma C10_counterexample :
  ∃ doc href,
    body (response (handler (tableStore shelf)
                      {[ "sort" := "price_asc&limit=50"; "limit" := "2" ]})) = doc
    ∧ navHrefs doc
      = ["?page=2&sort=price_asc&limit=50"; "?page=3&sort=price_asc&limit=50";
         "?page=2&sort=price_asc&limit=50"]
    ∧ href ∈ navHrefs doc
    ∧ queryOfHref href !! "limit" = Some "50"
    ∧ limitNum (resolveQuery (queryOfHref href)) = Fin 50.
Proof.
  exists (body (response (handler (tableStore shelf)
                   {[ "sort" := "price_asc&limit=50"; "limit" := "2" ]}))),
         "?page=2&sort=price_asc&limit=50".
  split; [reflexivity|]. split; [by vm_compute|].
  split; [|split; by vm_compute].
  apply list_elem_of_In. vm_compute. tauto.
Qed.

(** ** Parameters that are absent or not numeric *)

Lemma handler_resolveQuery db query query' :
  resolveQuery query = resolveQuery query' → handler db query = handler db query'.
Proof. intros Heq. unfold handler. by rewrite Heq. Qed.

(** C5, for absent parameters.  An absent [page] or [limit] parameter is
    replaced by its default ([1], [20]): the resolved query and the whole
    response are those of a request that supplies the default.  A parameter
    that is present is parsed as it is: when [parseInt] finds no number in
    it, the page number or the page size is [NaN], and so is the offset. *)
Theorem C5_defaults_stand_in_for_absent_parameters
  (db : D1Database) (query : gmap string string) :
  (query !! "page" = None →
     resolveQuery query = resolveQuery (<["page" := "1"]> query)
     ∧ handler db query = handler db (<["page" := "1"]> query))
  ∧ (query !! "limit" = None →
     resolveQuery query = resolveQuery (<["limit" := "20"]> query)
     ∧ handler db query = handler db (<["limit" := "20"]> query))
  ∧ (∀ s, query !! "page" = Some s → parseInt s = NaN →
     pageNum (resolveQuery query) = NaN ∧ offset (resolveQuery query) = NaN)
  ∧ (∀ s, query !! "limit" = Some s → parseInt s = NaN →
     limitNum (resolveQuery query) = NaN ∧ offset (resolveQuery query) = NaN).
Proof.
  split; [|split; [|split]].
  - intros Hpage.
    assert (resolveQuery query = resolveQuery (<["page" := "1"]> query)) as Heq.
    { unfold resolveQuery.
      by rewrite lookup_insert_eq, !lookup_insert_ne, Hpage. }
    split; [exact Heq|by apply handler_resolveQuery].
  - intros Hlimit.
    assert (resolveQuery query = resolveQuery (<["limit" := "20"]> query)) as Heq.
    { unfold resolveQuery.
      by rewrite lookup_insert_eq, !lookup_insert_ne, Hlimit. }
    split; [exact Heq|by apply handler_resolveQuery].
  - intros s Hs Hnan. unfold resolveQuery. cbn [pageNum offset].
    rewrite Hs. change (default "1" (Some s)) with s. by rewrite Hnan.
  - intros s Hs Hnan. unfold resolveQuery. cbn [limitNum offset].
    rewrite Hs. change (default "20" (Some s)) with s. rewrite Hnan.
    split; [done|]. by destruct (parseInt _ - Fin 1)%num.
Qed.

Lemma C5_witness :
  let query : gmap string string := {[ "limit" := "many" ]} in
  (resolveQuery query = resolveQuery (<["page" := "1"]> query)
   ∧ handler (tableStore shelf) query
     = handler (tableStore shelf) (<["page" := "1"]> query))
  ∧ limitNum (resolveQuery query) = NaN ∧ offset (resolveQuery query) = NaN.
Proof.
  destruct (C5_defaults_stand_in_for_absent_parameters
              (tableStore shelf) {[ "limit" := "many" ]})
    as (Hpage & _ & _ & Hlimit).
  split; [apply Hpage; reflexivity|apply (Hlimit "many"); reflexivity].
Defined.

Lemma C5_counterexample :
  parseInt "abc" = NaN
  ∧ offset (resolveQuery {[ "page" := "abc" ]}) = NaN
  ∧ offset (resolveQuery {[ "page" := "1" ]}) = Fin 0
  ∧ limitNum (resolveQuery {[ "limit" := "many" ]}) = NaN
  ∧ limitNum (resolveQuery {[ "limit" := "20" ]}) = Fin 20
  ∧ length (byClass "product-card"
              (body (response (handler (tableStore shelf) {[ "page" := "1" ]}))))
    = 5%nat
  ∧ response (handler (tableStore shelf) {[ "page" := "abc" ]})
    = c_html (renderError fetchErrorMessage)
  ∧ response (handler (tableStore shelf) {[ "limit" := "many" ]})
    = c_html (renderError fetchErrorMessage).
Proof. repeat split. Qed.

(** * Further properties *)

(** ** Numbers written in a link and read back *)

Lemma parseDigits_digit c k acc rest :
  digitValue c = Some k → k < 10 →
  parseDigits 10 acc (String c rest)
  = parseDigits 10 (Some (default 0 acc * 10 + k)) rest.
Proof.
  intros Hc Hk. cbn [parseDigits]. rewrite Hc.
  by rewrite (proj2 (Z.ltb_lt k 10) Hk).
Qed.

Lemma parseDigits_acc (d : Decimal.uint) (acc : positive) :
  parseDigits 10 (Some (Z.pos acc)) (NilEmpty.string_of_uint d)
  = Some (Z.pos (Pos.of_uint_acc d acc)).
Proof.
  revert acc.
  induction d; intros acc; cbn [NilEmpty.string_of_uint Pos.of_uint_acc];
    [done|..];
    (erewrite parseDigits_digit; [|reflexivity|done]);
    rewrite <- IHd; do 2 f_equal; eval_digit; cbn [from_option Datatypes.id]; lia.
Qed.

Lemma parseDigits_of_uint (d : Decimal.uint) :
  parseDigits 10 (Some 0) (NilEmpty.string_of_uint d)
  = Some (Z.of_N (Pos.of_uint d)).
Proof.
  induction d; cbn [NilEmpty.string_of_uint Pos.of_uint]; [done|..];
    (erewrite parseDigits_digit; [|reflexivity|done]);
    eval_digit; cbn [from_option Datatypes.id Z.mul Z.add];
    [exact IHd | apply parseDigits_acc ..].
Qed.

(** A number in decimal notation needs at least one digit. *)
Lemma parseUnsigned_of_uint (d : Decimal.uint) :
  d ≠ Decimal.Nil →
  parseUnsigned (NilEmpty.string_of_uint d) = Some (Z.of_uint d).
Proof.
  intros Hd. unfold Z.of_uint. rewrite <- parseDigits_of_uint.
  destruct d as [|l|l|l|l|l|l|l|l|l|l]; [done|destruct l|..]; reflexivity.
Qed.

Lemma parseUnsigned_NilZero (d : Decimal.uint) :
  parseUnsigned (NilZero.string_of_uint d) = Some (Z.of_uint d).
Proof.
  destruct d; [reflexivity|..]; by apply parseUnsigned_of_uint.
Qed.

Lemma parseInt_string_of_int (d : Decimal.int) :
  parseInt (NilZero.string_of_int d) = Fin (Z.of_int d).
Proof.
  destruct d as [d|d]; cbn [NilZero.string_of_int Z.of_int].
  - transitivity (match parseUnsigned (NilZero.string_of_uint d) with
                  | None => NaN
                  | Some v => Fin v
                  end); [|by rewrite parseUnsigned_NilZero].
    destruct d as [|l|l|l|l|l|l|l|l|l|l]; [reflexivity|destruct l|..]; reflexivity.
  - transitivity (match parseUnsigned (NilZero.string_of_uint d) with
                  | None => NaN
                  | Some v => Fin (- v)
                  end); [|by rewrite parseUnsigned_NilZero].
    destruct d as [|l|l|l|l|l|l|l|l|l|l]; [reflexivity|destruct l|..]; reflexivity.
Qed.

Lemma parseInt_decimal (z : Z) : parseInt (Num.decimal z) = Fin z.
Proof.
  unfold Num.decimal. by rewrite parseInt_string_of_int, DecimalZ.of_to.
Qed.




(** ** The navigation links of a page *)

Lemma linkTargets_app hs1 hs2 :
  linkTargets (hs1 ++ hs2) = linkTargets hs1 ++ linkTargets hs2.
Proof. unfold linkTargets. by rewrite List.filter_app, bind_app. Qed.

Lemma linkTargets_pageLinks (sort : string) (cp : Z) (pages : list Z) :
  linkTargets
    ((λ n, if n =? cp
           then Elem "span" [("class", "current")] [Text (Num.decimal n)]
           else navLink (Fin n) sort (Num.decimal n)) <$> pages)
  = (λ n, pageHref (Fin n) sort) <$> List.filter (λ n, negb (n =? cp)) pages.
Proof.
  induction pages as [|n pages IH]; [done|].
  rewrite fmap_cons. change (?h :: ?l) with ([h] ++ l) at 1.
  rewrite linkTargets_app, IH. cbn [List.filter].
  by destruct (n =? cp).
Qed.

Lemma navHrefs_block products pagination listing :
  products ≠ [] →
  renderListing products pagination = Ok listing →
  (totalPages pagination >? Fin 1)%num = true →
  navHrefs (catalogDocument listing)
  = linkTargets (childrenOf (renderPagination pagination)).
Proof.
  intros Hne Hlisting Hmany. unfold navHrefs.
  rewrite byClass_pagination_catalogDocument.
  rewrite (byClass_pagination_listing _ _ _ Hne Hlisting), Hmany.
  change (linkTargets (childrenOf (renderPagination pagination)) ++ []
          = linkTargets (childrenOf (renderPagination pagination))).
  apply app_nil_r.
Qed.

(** X2.  The navigation links of a rendered non-empty page with more than
    one page are, in order: the link to the previous page unless the
    current page is the first, a link for every page of the window other
    than the current one, and the link to the next page unless the current
    page is the last. *)
Theorem X2_navigation_links
  (products : list Product) (pagination : Pagination) (tp cp : Z) :
  products ≠ [] →
  Forall (λ p, is_Some (price p)) products →
  totalPages pagination = Fin tp → currentPage pagination = Fin cp →
  1 < tp → 1 ≤ cp ≤ tp →
  ∃ doc,
    renderProductList products pagination = Ok doc
    ∧ navHrefs doc
      = (λ n, pageHref (Fin n) (sort pagination))
        <$> ((if cp =? 1 then [] else [cp - 1])
             ++ List.filter (λ n, negb (n =? cp)) (specWindow tp cp)
             ++ (if cp =? tp then [] else [cp + 1])).
Proof.
  intros Hne Hpriced Htp Hcp Hmany Hrange.
  destruct (renderProductList_priced products pagination Hpriced)
    as (listing & Hlisting & Hdoc).
  exists (catalogDocument listing). split; [exact Hdoc|].
  rewrite (navHrefs_block _ _ _ Hne Hlisting)
    by (rewrite Htp, gtb_Fin; by apply Z.ltb_lt).
  destruct (pageLinks_spec pagination tp cp Htp Hcp) as [_ Hlinks]; [lia|].
  cbn [childrenOf renderPagination]. rewrite Hlinks.
  change (?h :: ?l) with ([h] ++ l) at 1.
  rewrite !linkTargets_app, linkTargets_pageLinks, !fmap_app. f_equal; [|f_equal].
  - unfold prevControl. rewrite Hcp, gtb_Fin. cbn [Num.sub Num.neg Num.add].
    destruct (Z.eqb_spec cp 1) as [->|Hcp1]; [done|].
    by rewrite (proj2 (Z.ltb_lt 1 cp)) by lia.
  - unfold nextControl. rewrite Hcp, Htp, ltb_Fin. cbn [Num.add].
    destruct (Z.eqb_spec cp tp) as [->|Hcptp].
    + by rewrite Z.ltb_irrefl.
    + by rewrite (proj2 (Z.ltb_lt cp tp)) by lia.
Qed.

Lemma X2_witness :
  let pagination := {| currentPage := Fin 2; totalPages := Fin 3;
                       totalProducts := Fin 5; sort := "price_asc";
                       limit := Fin 2 |} in
  ∃ doc,
    renderProductList shelf pagination = Ok doc
    ∧ navHrefs doc
      = (λ n, pageHref (Fin n) (sort pagination))
        <$> ((if 2 =? 1 then [] else [2 - 1])
             ++ List.filter (λ n, negb (n =? 2)) (specWindow 3 2)
             ++ (if 2 =? 3 then [] else [2 + 1])).
Proof.
  apply (X2_navigation_links shelf
           {| currentPage := Fin 2; totalPages := Fin 3;
              totalProducts := Fin 5; sort := "price_asc"; limit := Fin 2 |} 3 2).
  - discriminate.
  - unfold shelf. repeat (apply Forall_cons; split; [by eexists|]). apply Forall_nil_2.
  - reflexivity.
  - reflexivity.
  - lia.
  - lia.
Defined.

(** ** What the page-link window holds *)

Lemma specWindow_seqZ (tp cp : Z) :
  1 ≤ cp ≤ tp →
  ∃ lo, specWindow tp cp = seqZ lo (Z.min 5 tp)
        ∧ 1 ≤ lo ∧ lo ≤ cp < lo + Z.min 5 tp ∧ lo + Z.min 5 tp ≤ tp + 1.
Proof.
  intros Hrange. unfold specWindow. rewrite Z.geb_leb.
  destruct (Z.leb_spec tp 5).
  { exists 1. rewrite Z.min_r by lia. repeat split; lia. }
  rewrite Z.min_l by lia.
  destruct (Z.leb_spec cp 3); [exists 1; repeat split; lia|].
  destruct (Z.leb_spec (tp - 2) cp);
    [exists (tp - 4)|exists (cp - 2)]; repeat split; lia.
Qed.

Lemma filter_eqb_NoDup (cp : Z) (pages : list Z) :
  NoDup pages → cp ∈ pages → List.filter (λ n, n =? cp) pages = [cp].
Proof.
  induction 1 as [|n pages Hn Hnd IH]; [by intros ?%elem_of_nil|].
  cbn [List.filter]. intros [->|Hin]%elem_of_cons.
  - rewrite Z.eqb_refl. f_equal.
    clear IH Hnd. induction pages as [|m pages IH]; [done|].
    apply not_elem_of_cons in Hn as [Hne Hn]. cbn [List.filter].
    rewrite (proj2 (Z.eqb_neq m n)) by done. by apply IH.
  - destruct (Z.eqb_spec n cp) as [->|_]; [done|by apply IH].
Qed.

Lemma byClass_current_pageLinks (sort : string) (cp : Z) (pages : list Z) :
  byClass "current"
    ((λ n, if n =? cp
           then Elem "span" [("class", "current")] [Text (Num.decimal n)]
           else navLink (Fin n) sort (Num.decimal n)) <$> pages)
  = (λ n, Elem "span" [("class", "current")] [Text (Num.decimal n)])
    <$> List.filter (λ n, n =? cp) pages.
Proof.
  induction pages as [|n pages IH]; [done|].
  rewrite fmap_cons, byClass_cons, IH. cbn [List.filter].
  by destruct (n =? cp).
Qed.

(** X3.  On every page [currentPage] in [[1, totalPages]], the page-link
    window shows the current page, shows only pages that exist, shows no
    page twice, has [min 5 totalPages] entries, and exactly one of its
    entries is the current-page indicator. *)
Theorem X3_window_holds_the_current_page (pagination : Pagination) (tp cp : Z) :
  totalPages pagination = Fin tp → currentPage pagination = Fin cp →
  1 ≤ cp ≤ tp →
  Fin cp ∈ windowPages pagination
  ∧ (∀ x, x ∈ windowPages pagination → ∃ n, x = Fin n ∧ 1 ≤ n ≤ tp)
  ∧ NoDup (windowPages pagination)
  ∧ length (windowPages pagination) = Z.to_nat (Z.min 5 tp)
  ∧ byClass "current" (pageLinks pagination)
    = [Elem "span" [("class", "current")] [Text (Num.decimal cp)]].
Proof.
  intros Htp Hcp Hrange.
  destruct (pageLinks_spec pagination tp cp Htp Hcp) as [Hwin Hlinks]; [lia|].
  destruct (specWindow_seqZ tp cp Hrange) as (lo & Hseq & Hlo & Hin & Hhi).
  rewrite Hwin, Hlinks, byClass_current_pageLinks, Hseq.
  assert (cp ∈ seqZ lo (Z.min 5 tp)) as Hmem by (apply elem_of_seqZ; lia).
  split; [by apply list_elem_of_fmap_2|].
  split; [|split; [|split]].
  - intros x (n & -> & Hn%elem_of_seqZ)%list_elem_of_fmap. exists n. split; [done|lia].
  - apply NoDup_fmap_2; [by intros ?? [= ->]|apply NoDup_seqZ].
  - by rewrite length_fmap, length_seqZ.
  - by rewrite (filter_eqb_NoDup _ _ (NoDup_seqZ _ _) Hmem).
Qed.

Lemma X3_witness :
  let pagination := {| currentPage := Fin 11; totalPages := Fin 12;
                       totalProducts := Fin 231; sort := "price_asc";
                       limit := Fin 20 |} in
  Fin 11 ∈ windowPages pagination
  ∧ (∀ x, x ∈ windowPages pagination → ∃ n, x = Fin n ∧ 1 ≤ n ≤ 12)
  ∧ NoDup (windowPages pagination)
  ∧ length (windowPages pagination) = Z.to_nat (Z.min 5 12)
  ∧ byClass "current" (pageLinks pagination)
    = [Elem "span" [("class", "current")] [Text (Num.decimal 11)]].
Proof.
  apply (X3_window_holds_the_current_page
           {| currentPage := Fin 11; totalPages := Fin 12;
              totalProducts := Fin 231; sort := "price_asc";
              limit := Fin 20 |} 12 11);
    [reflexivity | reflexivity | lia].
Defined.

(** ** The cards of a page *)

Lemma hasClass_single c tag cls rest children :
  hasClass c (Elem tag (("class", cls) :: rest) children) = String.eqb cls c.
Proof. reflexivity. Qed.

Lemma byClass_renderControls c pagination :
  String.eqb "controls" c = false → String.eqb "sort-select" c = false →
  byClass c [renderControls pagination] = [].
Proof.
  intros Hcontrols Hselect. unfold renderControls, sortOption.
  rewrite byClass_Elem, hasClass_single, Hcontrols.
  rewrite (byClass_cons _ (Elem "div" _ _)), (byClass_Elem _ "select").
  rewrite hasClass_single, Hselect.
  by repeat destruct (String.eqb (sort pagination) _).
Qed.

Lemma byClass_renderPagination c pagination :
  String.eqb "pagination" c = false → String.eqb "disabled" c = false →
  String.eqb "current" c = false →
  byClass c [renderPagination pagination] = [].
Proof.
  intros Hpagination Hdisabled Hcurrent. unfold renderPagination.
  rewrite byClass_Elem, hasClass_single, Hpagination.
  apply byClass_nil_Forall.
  assert (∀ label, byClass c [disabledControl label] = []) as Hoff.
  { intros label. unfold disabledControl.
    by rewrite byClass_Elem, hasClass_single, Hdisabled. }
  apply Forall_cons. split; [|apply Forall_app; split].
  - by destruct (prevControl_cases pagination) as [->|[n ->]].
  - unfold pageLinks. apply Forall_fmap, Forall_forall. intros i _. unfold compose.
    destruct (pageLink_cases pagination i) as [[n ->]|[n ->]]; [|done].
    by rewrite byClass_Elem, hasClass_single, Hcurrent.
  - apply Forall_singleton.
    by destruct (nextControl_cases pagination) as [->|[n ->]].
Qed.

Lemma byClass_catalogDocument c listing :
  String.eqb "container" c = false → String.eqb "header" c = false →
  byClass c (catalogDocument listing) = byClass c listing.
Proof.
  intros Hcontainer Hheader. unfold catalogDocument.
  rewrite byClass_cons, byClass_Elem, (byClass_cons _ (pageHead _ _)), byClass_Elem.
  rewrite (byClass_cons _ (Elem "div" _ _)), byClass_Elem, (byClass_cons _ catalogHeader).
  rewrite hasClass_single, Hcontainer.
  assert (byClass c [catalogHeader] = []) as ->.
  { unfold catalogHeader. by rewrite byClass_Elem, hasClass_single, Hheader. }
  change (byClass c [Doctype]) with (@nil Html).
  change (byClass c [pageHead _ _]) with (@nil Html).
  change (byClass c [Elem "script" _ _]) with (@nil Html).
  change (hasClass c (Elem "html" _ _)) with false.
  change (hasClass c (Elem "body" _ _)) with false.
  cbn [app]. apply app_nil_r.
Qed.

Lemma not_chrome c cls :
  c ∉ chromeClasses → cls ∈ chromeClasses → String.eqb cls c = false.
Proof. intros Hc Hcls. apply String.eqb_neq. by intros ->. Qed.

(** Outside the chrome, the elements of a class are those of the cards. *)
Lemma byClass_cards_only c products pagination listing :
  c ∉ chromeClasses →
  products ≠ [] →
  renderListing products pagination = Ok listing →
  ∃ cards, mapM renderCard products = Ok cards
           ∧ byClass c (catalogDocument listing) = byClass c cards.
Proof.
  intros Hc Hne. unfold renderListing.
  destruct products as [|p products]; [done|]. cbn [length Nat.ltb Nat.leb].
  destruct (mapM renderCard (p :: products)) as [cards|] eqn:Hcards; [|done].
  intros [= <-]. exists cards. split; [done|].
  assert (∀ cls, cls ∈ chromeClasses → String.eqb cls c = false) as Hchrome
      by (intros cls; by apply not_chrome).
  rewrite byClass_catalogDocument by (apply Hchrome; unfold chromeClasses; set_solver).
  rewrite byClass_cons, byClass_renderControls
    by (apply Hchrome; unfold chromeClasses; set_solver).
  rewrite (byClass_cons _ (Elem "div" _ _)), byClass_Elem, hasClass_single.
  rewrite (Hchrome "products-grid") by (unfold chromeClasses; set_solver).
  cbn [app]. rewrite <- (app_nil_r (byClass c cards)) at 2. f_equal.
  destruct (totalPages pagination >? Fin 1)%num; [|done].
  apply byClass_renderPagination; apply Hchrome; unfold chromeClasses; set_solver.
Qed.

Lemma byClass_cards c (f : Product → list Html) products cards :
  (∀ p card, renderCard p = Ok card → byClass c [card] = f p) →
  mapM renderCard products = Ok cards →
  byClass c cards = products ≫= f.
Proof.
  intros Hf. revert cards. induction products as [|p products IH]; intros cards.
  - by intros [= <-].
  - cbn [mapM]. destruct (renderCard p) as [card|] eqn:Hcard; [|done].
    destruct (mapM renderCard products) as [rest|]; [|done].
    intros [= <-]. rewrite byClass_cons, (Hf p card Hcard), (IH rest eq_refl).
    done.
Qed.

Lemma bind_singleton_fmap {A B} (f : A → B) (l : list A) :
  (l ≫= λ x, [f x]) = f <$> l.
Proof. induction l as [|x l IH]; [done|]. cbn. by rewrite IH. Qed.

Lemma renderCard_Ok product card :
  renderCard product = Ok card →
  ∃ v, price product = Some v
       ∧ byClass "product-card" [card] = [card]
       ∧ byClass "product-name" [card]
         = [Elem "div" [("class", "product-name")] [Text (name product)]]
       ∧ byClass "product-price" [card]
         = [Elem "div" [("class", "product-price")] [Text (priceLabel product)]]
       ∧ attribute "href" <$> byClass "buy-button" [card]
         = [Some (linkTarget product)]
       ∧ byClass "product-image" [card]
         = match truthyString (image_url product) with
           | Some url =>
               [Elem "img" [("src", url); ("alt", name product);
                            ("class", "product-image");
                            ("onerror", "this.style.display='none'")] []]
           | None => []
           end.
Proof.
  unfold renderCard, priceLabel, linkTarget.
  destruct (price product) as [v|]; [|done]. intros [= <-]. exists v.
  split; [done|].
  destruct (truthyString (image_url product));
    (split; [reflexivity|]); (split; [reflexivity|]); (split; [reflexivity|]);
    (split; [|reflexivity]);
    by destruct (affiliate_url product) as [[|??]|].
Qed.

Lemma byClass_product_card products cards :
  mapM renderCard products = Ok cards →
  byClass "product-card" cards = cards ∧ length cards = length products.
Proof.
  revert cards. induction products as [|p products IH]; intros cards.
  - by intros [= <-].
  - cbn [mapM]. destruct (renderCard p) as [card|] eqn:Hcard; [|done].
    destruct (mapM renderCard products) as [rest|]; [|done].
    intros [= <-]. destruct (IH rest eq_refl) as [Hrest Hlen].
    destruct (renderCard_Ok p card Hcard) as (_ & _ & Hself & _).
    rewrite byClass_cons, Hself, Hrest. cbn [length]. by rewrite Hlen.
Qed.

(** X4.  A rendered non-empty page shows one card per product, in the order
    of the products: the names and the prices read off the cards are those
    of the products, the price with thousands separators after the yen
    sign. *)
Theorem X4_cards_follow_the_products
  (products : list Product) (pagination : Pagination) :
  products ≠ [] →
  Forall (λ p, is_Some (price p)) products →
  ∃ doc,
    renderProductList products pagination = Ok doc
    ∧ length (byClass "product-card" doc) = length products
    ∧ innerText <$> byClass "product-name" doc = name <$> products
    ∧ innerText <$> byClass "product-price" doc = priceLabel <$> products.
Proof.
  intros Hne Hpriced.
  destruct (renderProductList_priced products pagination Hpriced)
    as (listing & Hlisting & Hdoc).
  exists (catalogDocument listing). split; [exact Hdoc|].
  split; [|split].
  - destruct (byClass_cards_only "product-card" _ _ _ ltac:(not_chrome)
                Hne Hlisting) as (cards & Hcards & ->).
    destruct (byClass_product_card _ _ Hcards) as [-> Hlen]. exact Hlen.
  - destruct (byClass_cards_only "product-name" _ _ _ ltac:(not_chrome)
                Hne Hlisting) as (cards & Hcards & ->).
    rewrite (byClass_cards _
               (λ p, [Elem "div" [("class", "product-name")] [Text (name p)]])
               products cards); [|by intros p card (_ & _ & _ & ? & _)%renderCard_Ok|done].
    by rewrite bind_singleton_fmap, <- list_fmap_compose.
  - destruct (byClass_cards_only "product-price" _ _ _ ltac:(not_chrome)
                Hne Hlisting) as (cards & Hcards & ->).
    rewrite (byClass_cards _
               (λ p, [Elem "div" [("class", "product-price")] [Text (priceLabel p)]])
               products cards); [|by intros p card (_ & _ & _ & _ & ? & _)%renderCard_Ok|done].
    by rewrite bind_singleton_fmap, <- list_fmap_compose.
Qed.

Lemma X4_witness :
  ∃ doc,
    renderProductList shelf
      {| currentPage := Fin 1; totalPages := Fin 1; totalProducts := Fin 5;
         sort := "price_asc"; limit := Fin 20 |} = Ok doc
    ∧ length (byClass "product-card" doc) = length shelf
    ∧ innerText <$> byClass "product-name" doc = name <$> shelf
    ∧ innerText <$> byClass "product-price" doc = priceLabel <$> shelf.
Proof.
  apply (X4_cards_follow_the_products shelf).
  - discriminate.
  - unfold shelf. repeat (apply Forall_cons; split; [by eexists|]). apply Forall_nil_2.
Defined.

(** X5.  The buy links of a rendered page, in order, point at the
    affiliate link of each product when it has a non-empty one and at its
    product page otherwise. *)
Theorem X5_buy_links_fall_back_to_the_product_page
  (products : list Product) (pagination : Pagination) :
  products ≠ [] →
  Forall (λ p, is_Some (price p)) products →
  ∃ doc,
    renderProductList products pagination = Ok doc
    ∧ attribute "href" <$> byClass "buy-button" doc
      = (λ p, Some (linkTarget p)) <$> products.
Proof.
  intros Hne Hpriced.
  destruct (renderProductList_priced products pagination Hpriced)
    as (listing & Hlisting & Hdoc).
  exists (catalogDocument listing). split; [exact Hdoc|].
  destruct (byClass_cards_only "buy-button" _ _ _ ltac:(not_chrome)
              Hne Hlisting) as (cards & Hcards & ->).
  clear Hlisting Hdoc Hne Hpriced. revert cards Hcards.
  induction products as [|p products IH]; intros cards.
  - by intros [= <-].
  - cbn [mapM]. destruct (renderCard p) as [card|] eqn:Hcard; [|done].
    destruct (mapM renderCard products) as [rest|]; [|done].
    intros [= <-]. rewrite byClass_cons, fmap_app, (IH rest eq_refl).
    destruct (renderCard_Ok p card Hcard) as (_ & _ & _ & _ & _ & -> & _).
    done.
Qed.

Lemma X5_witness :
  ∃ doc,
    renderProductList
      [rice "a" (Some 2980) "2025-01-03"]
      {| currentPage := Fin 1; totalPages := Fin 1; totalProducts := Fin 1;
         sort := "price_asc"; limit := Fin 20 |} = Ok doc
    ∧ attribute "href" <$> byClass "buy-button" doc
      = (λ p, Some (linkTarget p)) <$> [rice "a" (Some 2980) "2025-01-03"].
Proof.
  apply (X5_buy_links_fall_back_to_the_product_page
           [rice "a" (Some 2980) "2025-01-03"]).
  - discriminate.
  - apply Forall_singleton. by eexists.
Defined.

(** X6.  A rendered page holds an image exactly for the products whose
    [image_url] is neither null nor empty, in the order of the products;
    the image carries that address and the product name as alternative
    text. *)
Theorem X6_images_only_for_products_with_an_image
  (products : list Product) (pagination : Pagination) :
  products ≠ [] →
  Forall (λ p, is_Some (price p)) products →
  ∃ doc,
    renderProductList products pagination = Ok doc
    ∧ (λ img, (attribute "src" img, attribute "alt" img))
      <$> byClass "product-image" doc
      = omap (λ p, (λ url, (Some url, Some (name p)))
                   <$> truthyString (image_url p)) products.
Proof.
  intros Hne Hpriced.
  destruct (renderProductList_priced products pagination Hpriced)
    as (listing & Hlisting & Hdoc).
  exists (catalogDocument listing). split; [exact Hdoc|].
  destruct (byClass_cards_only "product-image" _ _ _ ltac:(not_chrome)
              Hne Hlisting) as (cards & Hcards & ->).
  clear Hlisting Hdoc Hne Hpriced. revert cards Hcards.
  induction products as [|p products IH]; intros cards.
  - by intros [= <-].
  - cbn [mapM]. destruct (renderCard p) as [card|] eqn:Hcard; [|done].
    destruct (mapM renderCard products) as [rest|]; [|done].
    intros [= <-]. rewrite byClass_cons, fmap_app, (IH rest eq_refl).
    destruct (renderCard_Ok p card Hcard) as (_ & _ & _ & _ & _ & _ & ->).
    cbn [omap list_omap]. by destruct (truthyString (image_url p)).
Qed.

Lemma X6_witness :
  ∃ doc,
    renderProductList
      [rice "a" (Some 2980) "2025-01-03"]
      {| currentPage := Fin 1; totalPages := Fin 1; totalProducts := Fin 1;
         sort := "price_asc"; limit := Fin 20 |} = Ok doc
    ∧ (λ img, (attribute "src" img, attribute "alt" img))
      <$> byClass "product-image" doc
      = omap (λ p, (λ url, (Some url, Some (name p)))
                   <$> truthyString (image_url p))
          [rice "a" (Some 2980) "2025-01-03"].
Proof.
  apply (X6_images_only_for_products_with_an_image
           [rice "a" (Some 2980) "2025-01-03"]).
  - discriminate.
  - apply Forall_singleton. by eexists.
Defined.

(** ** What a request is answered with *)

Lemma handler_Ok db query items pagination doc :
  fetchPage db (resolveQuery query) = Ok (items, pagination) →
  renderProductList items pagination = Ok doc →
  handler db query = {| response := c_html doc; logged := [] |}.
Proof.
  intros Hfetch Hdoc. unfold handler. cbv zeta. rewrite Hfetch.
  cbn [mbind Result_bind fst snd]. by rewrite Hdoc.
Qed.

(** X7.  Every request is answered with status 200.  Either nothing is
    logged and the body is the catalog document rendered from the fetched
    page, or exactly one error is logged and the body is the error document
    with the fixed message. *)
Theorem X7_catalog_or_logged_error (db : D1Database) (query : gmap string string) :
  status (response (handler db query)) = 200
  ∧ ((∃ items pagination doc,
        fetchPage db (resolveQuery query) = Ok (items, pagination)
        ∧ renderProductList items pagination = Ok doc
        ∧ handler db query = {| response := c_html doc; logged := [] |})
     ∨ (∃ e,
          handler db query
          = {| response := c_html (renderError fetchErrorMessage);
               logged := [("Error fetching products:", e)] |}
          ∧ (fetchPage db (resolveQuery query) = Throw e
             ∨ ∃ items pagination,
                 fetchPage db (resolveQuery query) = Ok (items, pagination)
                 ∧ renderProductList items pagination = Throw e))).
Proof.
  destruct (fetchPage db (resolveQuery query)) as [[items pagination]|e] eqn:Hfetch.
  - destruct (renderProductList items pagination) as [doc|e] eqn:Hdoc.
    + rewrite (handler_Ok _ _ _ _ _ Hfetch Hdoc). split; [done|].
      left. by exists items, pagination, doc.
    + rewrite (handler_caught db query e)
        by (rewrite Hfetch; cbn [mbind Result_bind fst snd]; by rewrite Hdoc).
      split; [done|]. right. exists e. split; [done|]. right. by exists items, pagination.
  - rewrite (handler_caught db query e) by (by rewrite Hfetch).
    split; [done|]. right. exists e. split; [done|]. by left.
Qed.

(** X8.  When the slice fetch succeeds but its result carries no [results]
    array, the page is treated as empty: the handler answers with the
    no-products document and logs nothing. *)
Theorem X8_missing_results_render_the_empty_state
  (db : D1Database) (query : gmap string string) (countResult : option CountRow) :
  let q := resolveQuery query in
  countProducts db = Ok countResult →
  selectProducts db (orderBy q) (limitNum q) (offset q)
  = Ok {| results := None |} →
  handler db query
  = {| response := c_html (catalogDocument [noProducts]); logged := [] |}.
Proof.
  intros q Hcount Hsel. eapply handler_Ok.
  - unfold fetchPage. fold q. rewrite Hcount. cbn [mbind Result_bind].
    rewrite Hsel. reflexivity.
  - reflexivity.
Qed.

Lemma X8_witness :
  let db := {| countProducts := Ok (Some {| total := Fin 5 |});
               selectProducts := λ _ _ _, Ok {| results := None |} |} in
  handler db ∅
  = {| response := c_html (catalogDocument [noProducts]); logged := [] |}.
Proof.
  apply (X8_missing_results_render_the_empty_state
           {| countProducts := Ok (Some {| total := Fin 5 |});
              selectProducts := λ _ _ _, Ok {| results := None |} |}
           ∅ (Some {| total := Fin 5 |})); reflexivity.
Defined.

(** X9.  A page number beyond the last page is not an error: for a page
    [p >= 1] and a page size [l > 0] in the exact range, when the offset
    [(p - 1) * l] is at or past the number of rows the request is answered
    with the no-products document, and nothing is logged. *)
Theorem X9_page_beyond_the_last_shows_the_empty_state
  (rows : list Product) (listing : string → Result (list Product))
  (sorted : list Product) (query : gmap string string) (p l : Z) :
  let q := resolveQuery query in
  pageNum q = Fin p → limitNum q = Fin l → 1 ≤ p → 0 < l →
  safeInteger p → safeInteger l → safeInteger ((p - 1) * l) →
  listing (orderBy q) = Ok sorted → length sorted = length rows →
  Z.of_nat (length rows) ≤ (p - 1) * l →
  handler (d1Store rows listing) query
  = {| response := c_html (catalogDocument [noProducts]); logged := [] |}.
Proof.
  intros q Hp Hl Hp1 Hl0 Hsafep Hsafel Hsafeo Hsorted Hlen Hbeyond.
  assert (offset q = Fin ((p - 1) * l)) as Ho.
  { unfold q. rewrite resolveQuery_offset. fold q. by rewrite Hp, Hl. }
  pose proof (fetchPage_d1Store rows listing q l _ sorted Hl Ho
                (safeInteger_int64 _ Hsafel) (safeInteger_int64 _ Hsafeo)
                Hsorted) as Hfetch.
  rewrite limitOffset_beyond in Hfetch by lia.
  by apply (handler_Ok _ _ _ _ _ Hfetch).
Qed.

Lemma X9_witness :
  handler shelfStore {[ "page" := "4"; "limit" := "2" ]}
  = {| response := c_html (catalogDocument [noProducts]); logged := [] |}.
Proof.
  eapply (X9_page_beyond_the_last_shows_the_empty_state shelf
            (λ orderBy, orderRows orderBy shelf) _
            {[ "page" := "4"; "limit" := "2" ]} 4 2);
    [reflexivity | reflexivity | lia | lia
    | safe_literal | safe_literal | safe_literal
    | reflexivity | reflexivity | simpl; lia].
Defined.

(** X10.  A page size of zero is passed on as [LIMIT 0]: whatever the table
    holds, for every page number in the exact range the request is answered
    with the no-products document. *)
Theorem X10_zero_page_size_shows_the_empty_state
  (rows : list Product) (listing : string → Result (list Product))
  (sorted : list Product) (query : gmap string string) (p : Z) :
  let q := resolveQuery query in
  pageNum q = Fin p → limitNum q = Fin 0 → safeInteger p →
  listing (orderBy q) = Ok sorted →
  handler (d1Store rows listing) query
  = {| response := c_html (catalogDocument [noProducts]); logged := [] |}.
Proof.
  intros q Hp Hl Hsafep Hsorted.
  assert (offset q = Fin 0) as Ho.
  { unfold q. rewrite resolveQuery_offset. fold q. rewrite Hp, Hl.
    cbn [Num.sub Num.neg Num.add Num.mul]. f_equal. lia. }
  pose proof (fetchPage_d1Store rows listing q 0 0 sorted Hl Ho
                eq_refl eq_refl Hsorted) as Hfetch.
  assert (limitOffset 0 0 sorted = []) as Hnone by apply take_0.
  rewrite Hnone in Hfetch. by apply (handler_Ok _ _ _ _ _ Hfetch).
Qed.

Lemma X10_witness :
  handler shelfStore {[ "limit" := "0" ]}
  = {| response := c_html (catalogDocument [noProducts]); logged := [] |}.
Proof.
  eapply (X10_zero_page_size_shows_the_empty_state shelf
            (λ orderBy, orderRows orderBy shelf) _ {[ "limit" := "0" ]} 1);
    [reflexivity | reflexivity | safe_literal | reflexivity].
Defined.

(** X11.  One product without a price spoils the whole page: when the
    fetched page holds a product whose price is null, the handler answers
    with the error document and logs the [TypeError] of the price
    formatting. *)
Theorem X11_a_null_price_fails_the_whole_page
  (db : D1Database) (query : gmap string string)
  (items : list Product) (pagination : Pagination) (product : Product) :
  fetchPage db (resolveQuery query) = Ok (items, pagination) →
  product ∈ items → price product = None →
  handler db query
  = {| response := c_html (renderError fetchErrorMessage);
       logged := [("Error fetching products:",
                   TypeError "Cannot read properties of null (reading 'toLocaleString')")] |}.
Proof.
  intros Hfetch Hin Hnull. apply handler_caught. rewrite Hfetch.
  cbn [mbind Result_bind fst snd].
  by rewrite (renderProductList_null_price items pagination product Hin Hnull).
Qed.

Lemma X11_witness :
  handler (tableStore (shelf ++ [rice "f" None "2025-01-06"])) ∅
  = {| response := c_html (renderError fetchErrorMessage);
       logged := [("Error fetching products:",
                   TypeError "Cannot read properties of null (reading 'toLocaleString')")] |}.
Proof.
  eapply (X11_a_null_price_fails_the_whole_page
            (tableStore (shelf ++ [rice "f" None "2025-01-06"])) ∅
            _ _ (rice "f" None "2025-01-06")).
  - reflexivity.
  - apply list_elem_of_In. vm_compute. tauto.
  - reflexivity.
Defined.

(** ** The summary line and the walk through the pages *)

(** X12.  The summary line tells the positions of the items shown: for a
    page [p >= 1] that starts inside a table of [n] rows, with page size
    [l > 0] and [p * l] in the exact range, it reads "[n] in all,
    [(p - 1) * l + 1] to [(p - 1) * l + k]", where [k], between 1 and [l],
    is the number of items on the page. *)
Theorem X12_summary_names_the_items_shown
  (rows : list Product) (listing : string → Result (list Product))
  (sorted : list Product) (query : gmap string string) (p l : Z) :
  let q := resolveQuery query in
  let n := Z.of_nat (length rows) in
  pageNum q = Fin p → limitNum q = Fin l → 1 ≤ p → 0 < l →
  safeInteger n → safeInteger (p * l) →
  listing (orderBy q) = Ok sorted → length sorted = length rows →
  (p - 1) * l < n →
  ∃ items pagination,
    fetchPage (d1Store rows listing) q = Ok (items, pagination)
    ∧ 1 ≤ Z.of_nat (length items) ≤ l
    ∧ summaryText pagination
      = "全" +:+ Num.decimal n +:+ "件中 "
        +:+ Num.decimal ((p - 1) * l + 1) +:+ "-"
        +:+ Num.decimal ((p - 1) * l + Z.of_nat (length items))
        +:+ "件を表示".
Proof.
  intros q n Hp Hl Hp1 Hl0 Hsafen Hsafepl Hsorted Hlen Hinside.
  assert (offset q = Fin ((p - 1) * l)) as Ho.
  { unfold q. rewrite resolveQuery_offset. fold q. by rewrite Hp, Hl. }
  assert (0 ≤ (p - 1) * l) as Hpos by nia.
  assert (safeInteger l ∧ safeInteger ((p - 1) * l)) as [Hsafel Hsafeo].
  { unfold safeInteger in *. split; nia. }
  rewrite (fetchPage_d1Store rows listing q l _ sorted Hl Ho
             (safeInteger_int64 _ Hsafel) (safeInteger_int64 _ Hsafeo) Hsorted).
  do 2 eexists. split; [reflexivity|].
  assert (Z.of_nat (length (limitOffset l ((p - 1) * l) sorted))
          = Z.min l (n - (p - 1) * l)) as Hcount.
  { unfold limitOffset. rewrite (proj2 (Z.ltb_ge l 0)) by lia.
    rewrite length_take, length_drop, Hlen. unfold n in *. lia. }
  split; [lia|].
  unfold summaryText. cbn [currentPage limit totalProducts]. rewrite Hp.
  cbn [Num.sub Num.neg Num.add Num.mul]. rewrite min_Fin. cbn [Num.toString].
  rewrite Hcount. fold n.
  replace ((p + - (1)) * l + 1) with ((p - 1) * l + 1) by lia.
  by replace (Z.min (p * l) n)
    with ((p - 1) * l + Z.min l (n - (p - 1) * l)) by lia.
Qed.

Lemma X12_witness :
  ∃ items pagination,
    fetchPage shelfStore (resolveQuery {[ "page" := "3"; "limit" := "2" ]})
    = Ok (items, pagination)
    ∧ 1 ≤ Z.of_nat (length items) ≤ 2
    ∧ summaryText pagination
      = "全" +:+ Num.decimal (Z.of_nat (length shelf)) +:+ "件中 "
        +:+ Num.decimal ((3 - 1) * 2 + 1) +:+ "-"
        +:+ Num.decimal ((3 - 1) * 2 + Z.of_nat (length items))
        +:+ "件を表示".
Proof.
  eapply (X12_summary_names_the_items_shown shelf
            (λ orderBy, orderRows orderBy shelf) _
            {[ "page" := "3"; "limit" := "2" ]} 3 2);
    [reflexivity | reflexivity | lia | lia | safe_literal | safe_literal
    | reflexivity | reflexivity | simpl; lia].
Defined.

Lemma insertBy_Permutation le x rows : insertBy le x rows ≡ₚ x :: rows.
Proof.
  induction rows as [|y rows IH]; [done|]. cbn [insertBy].
  destruct (le x y); [done|]. by rewrite IH, Permutation_swap.
Qed.

Lemma sortBy_Permutation le rows : sortBy le rows ≡ₚ rows.
Proof.
  induction rows as [|x rows IH]; [done|].
  unfold sortBy in *. cbn [foldr]. by rewrite insertBy_Permutation, IH.
Qed.

Lemma orderRows_Permutation orderBy rows sorted :
  orderRows orderBy rows = Ok sorted → sorted ≡ₚ rows.
Proof.
  unfold orderRows. repeat case_match; intros [= <-]; apply sortBy_Permutation.
Qed.

(** Consecutive slices of [l] rows, from the first row on, make up the
    first [k * l] rows. *)
Lemma concat_slices (l : Z) (k : nat) (rows : list Product) :
  0 < l →
  concat ((λ p, limitOffset l ((p - 1) * l) rows) <$> seqZ 1 (Z.of_nat k))
  = take (k * Z.to_nat l) rows.
Proof.
  intros Hl. induction k as [|k IH]; [done|].
  rewrite seqZ_S, fmap_app, concat_app, IH. cbn [fmap list_fmap concat].
  rewrite app_nil_r. unfold limitOffset.
  rewrite (proj2 (Z.ltb_ge l 0)) by lia.
  replace (Z.to_nat ((1 + Z.of_nat k - 1) * l)) with (k * Z.to_nat l)%nat by lia.
  rewrite take_take_drop. f_equal. lia.
Qed.

Lemma resolveQuery_pageRequest sort p l :
  resolveQuery (pageRequest sort p l)
  = {| sortParam := sort;
       pageNum := Fin p;
       limitNum := Fin l;
       offset := Fin ((p - 1) * l);
       orderBy := orderByOf sort |}.
Proof.
  unfold resolveQuery, pageRequest.
  rewrite lookup_insert_eq.
  rewrite !(lookup_insert_ne _ "sort") by done.
  rewrite lookup_insert_eq.
  rewrite !(lookup_insert_ne _ "page") by done.
  rewrite lookup_singleton_eq.
  cbn [from_option Datatypes.id]. rewrite !parseInt_decimal.
  cbn [Num.sub Num.neg Num.add Num.mul]. do 2 f_equal.
Qed.

(** X13.  Walking the pages [1 .. totalPages] with a fixed sort token and a
    page size [l > 0] shows every row of the table exactly once, as long
    as the store lists the table in one order for that [ORDER BY]: the
    pages put end to end are that listing, a rearrangement of the table.
    The number of rows and [l] are taken in the exact range. *)
Theorem X13_pages_partition_the_table
  (rows : list Product) (listing : string → Result (list Product))
  (sorted : list Product) (sort : string) (l : Z) :
  0 < l → safeInteger l → safeInteger (Z.of_nat (length rows)) →
  listing (orderByOf sort) = Ok sorted → sorted ≡ₚ rows →
  let pages := - ((- Z.of_nat (length rows)) / l) in
  let walk :=
    concat ((λ p, itemsOf (fetchPage (d1Store rows listing)
                             (resolveQuery (pageRequest sort p l))))
            <$> seqZ 1 pages) in
  walk = sorted ∧ walk ≡ₚ rows.
Proof.
  intros Hl Hsafel Hsafen Hsorted Hperm pages walk.
  pose proof (Permutation_length Hperm) as Hlen.
  pose proof (isCeiling_ceil (Z.of_nat (length rows)) l Hl) as [Hlo Hhi].
  fold pages in Hlo, Hhi.
  assert (walk = sorted) as ->; [|by split].
  unfold walk.
  rewrite (list_fmap_ext _ (λ p, limitOffset l ((p - 1) * l) sorted)).
  2:{ intros i p Hp%list_elem_of_lookup_2%elem_of_seqZ.
      rewrite (fetchPage_d1Store rows listing _ l ((p - 1) * l) sorted);
        [done|by rewrite resolveQuery_pageRequest..| | |
         by rewrite resolveQuery_pageRequest].
      - by apply safeInteger_int64.
      - apply safeInteger_int64. unfold safeInteger in *. nia. }
  assert (0 ≤ pages) as Hpages by nia.
  rewrite <- (Z2Nat.id pages Hpages), concat_slices by done.
  apply take_ge. rewrite Hlen. nia.
Qed.

Lemma X13_witness :
  let pages := - ((- Z.of_nat (length shelf)) / 2) in
  let walk :=
    concat ((λ p, itemsOf (fetchPage shelfStore
                             (resolveQuery (pageRequest "price_desc" p 2))))
            <$> seqZ 1 pages) in
  walk ≡ₚ shelf.
Proof.
  refine (proj2 (X13_pages_partition_the_table shelf
                   (λ orderBy, orderRows orderBy shelf)
                   (sortBy (λ a b, priceLe (price b) (price a)) shelf)
                   "price_desc" 2 _ _ _ _ _)).
  - lia.
  - safe_literal.
  - safe_literal.
  - reflexivity.
  - apply sortBy_Permutation.
Defined.

(** X14.  A page number of zero or below is not rejected: with a page size
    [l > 0], and all values in the exact range, the store is asked for a
    negative offset and returns the rows of the first page. *)
Theorem X14_page_zero_or_below_shows_the_first_page
  (rows : list Product) (listing : string → Result (list Product))
  (sorted : list Product) (sort : string) (p l : Z) :
  p ≤ 1 → 0 < l →
  safeInteger p → safeInteger l → safeInteger ((p - 1) * l) →
  listing (orderByOf sort) = Ok sorted →
  ∃ items,
    fetchPage (d1Store rows listing) (resolveQuery (pageRequest sort p l))
    = Ok (items, {| currentPage := Fin p;
                    totalPages := Math.ceil (Fin (Z.of_nat (length rows)) / Fin l)%num;
                    totalProducts := Fin (Z.of_nat (length rows));
                    sort := sort;
                    limit := Fin l |})
    ∧ items = itemsOf (fetchPage (d1Store rows listing)
                         (resolveQuery (pageRequest sort 1 l))).
Proof.
  intros Hp Hl Hsafep Hsafel Hsafeo Hsorted.
  rewrite !resolveQuery_pageRequest.
  rewrite (fetchPage_d1Store rows listing _ l ((p - 1) * l) sorted);
    [|done|done|by apply safeInteger_int64..|done].
  eexists. split; [reflexivity|].
  rewrite (fetchPage_d1Store rows listing _ l ((1 - 1) * l) sorted);
    [|done|done|by apply safeInteger_int64|done|done].
  cbn [itemsOf fst]. unfold limitOffset.
  by replace (Z.to_nat ((p - 1) * l)) with (Z.to_nat ((1 - 1) * l)) by nia.
Qed.

Lemma X14_witness :
  ∃ items,
    fetchPage shelfStore (resolveQuery (pageRequest "price_asc" (-3) 2))
    = Ok (items, {| currentPage := Fin (-3);
                    totalPages := Math.ceil (Fin (Z.of_nat (length shelf)) / Fin 2)%num;
                    totalProducts := Fin (Z.of_nat (length shelf));
                    sort := "price_asc";
                    limit := Fin 2 |})
    ∧ items = itemsOf (fetchPage shelfStore
                         (resolveQuery (pageRequest "price_asc" 1 2))).
Proof.
  eapply (X14_page_zero_or_below_shows_the_first_page shelf
            (λ orderBy, orderRows orderBy shelf) _ "price_asc" (-3) 2);
    [lia | lia | safe_literal | safe_literal | safe_literal | reflexivity].
Defined.

(** X15.  When the count read yields no usable total (no row, a total of
    zero, or [NaN]), the page view reports zero products and, for any page
    size other than zero, zero pages, whatever the slice fetch returns. *)
Theorem X15_unusable_count_reports_zero
  (db : D1Database) (q : PageQuery) (countResult : option CountRow)
  (l : Z) (page : D1Result) :
  countProducts db = Ok countResult →
  (countResult = None ∨ (total <$> countResult) = Some (Fin 0)
   ∨ (total <$> countResult) = Some NaN) →
  limitNum q = Fin l → l ≠ 0 →
  selectProducts db (orderBy q) (limitNum q) (offset q) = Ok page →
  fetchPage db q
  = Ok (default [] (results page),
        {| currentPage := pageNum q;
           totalPages := Fin 0;
           totalProducts := Fin 0;
           sort := sortParam q;
           limit := Fin l |}).
Proof.
  intros Hcount Hunusable Hl Hl0 Hsel. unfold fetchPage.
  rewrite Hcount. cbn [mbind Result_bind]. rewrite Hsel. cbn [mbind Result_bind].
  assert (totalOf countResult = Fin 0) as ->.
  { destruct countResult as [[t]|]; [|done]. cbn in Hunusable.
    by destruct Hunusable as [?|[[= ->]|[= ->]]]. }
  rewrite Hl, ceil_div_Fin by done. cbn [Z.opp]. by rewrite Z.div_0_l.
Qed.

Lemma X15_witness :
  let db := {| countProducts := Ok None;
               selectProducts := λ _ _ _, Ok {| results := Some shelf |} |} in
  let q := resolveQuery ∅ in
  fetchPage db q
  = Ok (default [] (results {| results := Some shelf |}),
        {| currentPage := pageNum q;
           totalPages := Fin 0;
           totalProducts := Fin 0;
           sort := sortParam q;
           limit := Fin 20 |}).
Proof.
  apply (X15_unusable_count_reports_zero
           {| countProducts := Ok None;
              selectProducts := λ _ _ _, Ok {| results := Some shelf |} |}
           (resolveQuery ∅) None 20 {| results := Some shelf |});
    [reflexivity | by left | reflexivity | lia | reflexivity].
Defined.

(** ** The sort menu *)

Lemma byClass_sort_select_cards products cards :
  mapM renderCard products = Ok cards → byClass "sort-select" cards = [].
Proof.
  intros Hcards.
  rewrite (byClass_cards _ (λ _, []) products cards); [|..|done].
  - clear Hcards. induction products as [|p products IH]; [done|exact IH].
  - intros p card. unfold renderCard. destruct (price p); [|done].
    destruct (truthyString (image_url p)); intros [= <-]; reflexivity.
Qed.

(** X16.  In the sort menu of a rendered non-empty page the options marked
    selected are those whose value is the sort token of the request: one
    option for each of the three sort keys, none for any other token. *)
Theorem X16_sort_menu_marks_the_requested_key
  (products : list Product) (pagination : Pagination) :
  products ≠ [] →
  Forall (λ p, is_Some (price p)) products →
  ∃ doc,
    renderProductList products pagination = Ok doc
    ∧ selectedValues doc
      = List.filter (String.eqb (sort pagination)) sortKeys.
Proof.
  intros Hne Hpriced.
  destruct (renderProductList_priced products pagination Hpriced)
    as (listing & Hlisting & Hdoc).
  exists (catalogDocument listing). split; [exact Hdoc|].
  unfold selectedValues. rewrite byClass_catalogDocument by done.
  revert Hlisting. unfold renderListing.
  destruct products as [|p products]; [done|]. cbn [length Nat.ltb Nat.leb].
  destruct (mapM renderCard (p :: products)) as [cards|] eqn:Hcards; [|done].
  intros [= <-].
  rewrite byClass_cons, (byClass_cons _ (Elem "div" _ _)), byClass_Elem.
  rewrite (byClass_sort_select_cards _ _ Hcards).
  assert (byClass "sort-select"
            (if (totalPages pagination >? Fin 1)%num
             then [renderPagination pagination] else []) = []) as ->.
  { destruct (totalPages pagination >? Fin 1)%num; [|done].
    by apply byClass_renderPagination. }
  unfold renderControls, sortOption, sortKeys. cbn [List.filter].
  by repeat destruct (String.eqb (sort pagination) _).
Qed.

Lemma X16_witness :
  ∃ doc,
    renderProductList shelf
      {| currentPage := Fin 1; totalPages := Fin 1; totalProducts := Fin 5;
         sort := "cheapest"; limit := Fin 20 |} = Ok doc
    ∧ selectedValues doc = List.filter (String.eqb "cheapest") sortKeys.
Proof.
  apply (X16_sort_menu_marks_the_requested_key shelf
           {| currentPage := Fin 1; totalPages := Fin 1; totalProducts := Fin 5;
              sort := "cheapest"; limit := Fin 20 |}).
  - discriminate.
  - unfold shelf. repeat (apply Forall_cons; split; [by eexists|]). apply Forall_nil_2.
Defined.

(** ** Bounds the handler does not check *)

(** X17.  A negative page size is passed on as a negative [LIMIT], which
    the store reads as no limit: for every page [p >= 1], all values in
    the exact range, the request is given every row the store lists for
    the [ORDER BY], and [totalPages] is zero or negative. *)
Theorem X17_negative_page_size_returns_the_whole_table
  (rows : list Product) (listing : string → Result (list Product))
  (sorted : list Product) (sort : string) (p l : Z) :
  1 ≤ p → l < 0 →
  safeInteger p → safeInteger l → safeInteger ((p - 1) * l) →
  listing (orderByOf sort) = Ok sorted →
  ∃ tp,
    tp ≤ 0
    ∧ fetchPage (d1Store rows listing) (resolveQuery (pageRequest sort p l))
      = Ok (sorted, {| currentPage := Fin p;
                       totalPages := Fin tp;
                       totalProducts := Fin (Z.of_nat (length rows));
                       sort := sort;
                       limit := Fin l |}).
Proof.
  intros Hp Hl Hsafep Hsafel Hsafeo Hsorted.
  exists (- ((- Z.of_nat (length rows)) / l)). split.
  - rewrite <- (Z.opp_involutive l), Z.div_opp_opp by lia.
    pose proof (Z.div_pos (Z.of_nat (length rows)) (- l)). lia.
  - rewrite resolveQuery_pageRequest.
    rewrite (fetchPage_d1Store rows listing _ l ((p - 1) * l) sorted);
      [|done|done|by apply safeInteger_int64..|done].
    cbn [pageNum sortParam]. rewrite ceil_div_Fin by lia. do 2 f_equal.
    unfold limitOffset. rewrite (proj2 (Z.ltb_lt l 0) Hl).
    by replace (Z.to_nat ((p - 1) * l)) with 0%nat by nia.
Qed.

Lemma X17_witness :
  ∃ tp,
    tp ≤ 0
    ∧ fetchPage shelfStore (resolveQuery (pageRequest "price_asc" 2 (-1)))
      = Ok (sortBy (λ a b, priceLe (price a) (price b)) shelf,
            {| currentPage := Fin 2;
               totalPages := Fin tp;
               totalProducts := Fin (Z.of_nat (length shelf));
               sort := "price_asc";
               limit := Fin (-1) |}).
Proof.
  apply (X17_negative_page_size_returns_the_whole_table shelf
           (λ orderBy, orderRows orderBy shelf)
           (sortBy (λ a b, priceLe (price a) (price b)) shelf)
           "price_asc" 2 (-1));
    [lia | lia | safe_literal | safe_literal | safe_literal | reflexivity].
Defined.

(** X18.  Whatever the request, the [ORDER BY] clause placed in the SQL
    text is one of three fixed strings: no part of the [sort] parameter
    reaches the query. *)
Theorem X18_order_by_is_one_of_three_clauses (query : gmap string string) :
  orderBy (resolveQuery query) ∈ ["price ASC"; "price DESC"; "updated_at DESC"].
Proof.
  rewrite resolveQuery_orderBy. unfold orderByOf.
  repeat case_match; set_solver.
Qed.
